(** * The [Idea] aggregate of [src/es.js]: optimistic local events,
      snapshot-based rollback and reconciliation with server batches.

    The development embeds the constructor function [Idea] of [es.js]
    (lines 3-174) shallowly: the object's mutable fields become a
    record, every method becomes a computation in a small state monad
    in which an exception leaves the mutations made before it in place
    (as a JavaScript [throw] does), and the dispatch-by-name
    [this['apply' + event.type](event)] becomes a lookup of the method
    name among the methods the constructor installs.

    Modelling conventions, all visible in the definitions below:
    - JavaScript values that the code stores in fields are [value]s:
      [undefined], integer-valued numbers and strings; [VNum z] stands
      for the number [z], an integer that a double holds exactly, and
      its conversion to a string is the language's (decimal digits up
      to 21 of them, exponent notation beyond);
    - an event is an object with the properties the code reads: [type],
      [data] (possibly absent) and [correlationId] (a string, or
      absent);
    - [for (si in stream)] visits the indices the array has when the
      loop starts, in ascending order; elements pushed onto the array
      while the loop runs are not visited (the language leaves that
      case to the engine, and the engines enumerate the keys up front).
      The arrays of this program are only ever pushed to or replaced,
      so the visited elements are the list the array held at loop entry;
    - the natural number [fuel] bounds the depth of nested method
      dispatch; running out of it is the outcome [OutOfFuel], distinct
      from returning and from throwing (an engine whose stack is
      exhausted raises a [RangeError], which the methods do not
      catch). *)

From Stdlib Require Import List String Ascii ZArith Bool Lia DecimalString.
Import ListNotations.
Local Open Scope string_scope.
Local Open Scope list_scope.

(** ** Values *)

Inductive value : Type :=
| VUndefined
| VNum (z : Z)
| VStr (s : string).

Definition value_eq_dec (a b : value) : {a = b} + {a <> b}.
Proof. decide equality; [apply Z.eq_dec | apply string_dec]. Defined.

(** *** Numbers as strings

    [Number::toString] of the language, on integers.  A number is a
    double: an integer literal denotes the double nearest to it (ties
    to even), and the string is made of the fewest significant digits
    that still denote that double, written out in full when the number
    has at most 21 digits and in exponent notation otherwise. *)

(** The integer in decimal digits. *)
Definition decimal (z : Z) : string := NilZero.string_of_int (Z.to_int z).

(** Below [2^53] every integer is a double. *)
Definition twoTo53 : Z := 9007199254740992.

(** The double nearest to a positive integer, ties to even; [None]
    when that is [Infinity]. *)
Definition roundToDouble (z : Z) : option Z :=
  if Z.ltb z twoTo53 then Some z
  else
    let e := (Z.log2 z - 52)%Z in
    let q := Z.shiftr z e in
    let r := (z - Z.shiftl q e)%Z in
    let half := Z.shiftl 1 (e - 1) in
    let q' := if Z.ltb half r || (Z.eqb r half && Z.odd q) then (q + 1)%Z else q in
    let x := Z.shiftl q' e in
    if Z.ltb x (Z.shiftl 1 1024) then Some x else None.

Definition roundsTo (x v : Z) : bool :=
  match roundToDouble v with
  | Some y => Z.eqb y x
  | None => false
  end.

(** The integer with [k] significant digits that denotes the double
    [x], which has [n] digits, if there is one: of the two
    neighbours of [x] with [k] digits, the closer one that rounds to
    [x], the even one on a tie. *)
Definition digitsAt (x : Z) (n : Z) (k : Z) : option Z :=
  let p := Z.pow 10 (Z.max 0 (n - k)) in
  let lo := Z.div x p in
  let v1 := (lo * p)%Z in
  let v2 := ((lo + 1) * p)%Z in
  match roundsTo x v1, roundsTo x v2 with
  | true, true =>
      if Z.ltb (x - v1) (v2 - x) then Some v1
      else if Z.ltb (v2 - x) (x - v1) then Some v2
      else if Z.even lo then Some v1 else Some v2
  | true, false => Some v1
  | false, true => Some v2
  | false, false => None
  end.

Fixpoint shortestFrom (x n : Z) (k : Z) (more : nat) : Z :=
  match digitsAt x n k with
  | Some v => v
  | None =>
      match more with
      | O => x
      | S m => shortestFrom x n (k + 1) m
      end
  end.

(** The integer with the fewest significant digits that denotes the
    double [x]; seventeen digits always suffice. *)
Definition shortest (x : Z) : Z :=
  shortestFrom x (Z.of_nat (String.length (decimal x))) 1 16.

(** A digit string without its trailing zeros. *)
Fixpoint stripZeros (s : string) : string :=
  match s with
  | EmptyString => EmptyString
  | String c rest =>
      match stripZeros rest with
      | EmptyString => if Ascii.eqb c "0"%char then EmptyString else String c EmptyString
      | r => String c r
      end
  end.

(** Exponent notation: [d.ddde+n], or [de+n] with a single digit. *)
Definition exponential (v : Z) : string :=
  let all := decimal v in
  let e := decimal (Z.of_nat (String.length all) - 1) in
  match stripZeros all with
  | EmptyString => all
  | String d EmptyString => String d (String.append "e+" e)
  | String d rest => String d (String.append "." (String.append rest (String.append "e+" e)))
  end.

Definition positiveToString (z : Z) : string :=
  match roundToDouble z with
  | None => "Infinity"
  | Some x =>
      let v := if Z.ltb x twoTo53 then x else shortest x in
      if Z.ltb v (Z.pow 10 21) then decimal v else exponential v
  end.

Definition numberToString (z : Z) : string :=
  if Z.ltb z 0 then String.append "-" (positiveToString (- z)) else positiveToString z.

(** String conversion as performed by [+] with a string operand. *)
Definition toStr (v : value) : string :=
  match v with
  | VUndefined => "undefined"
  | VNum z => numberToString z
  | VStr s => s
  end.

(** ** Events *)

Module Data.
(** The properties of [event.data] that the handlers read; a property
    that the object literal does not mention reads as [undefined]. *)
Record t : Type := mk {
  ideaId : value;
  title : value;
  description : value;
  tagId : value
}.
End Data.

(** An event; one written without a [type] has the type ["undefined"],
    which is what ['apply' + event.type] makes of it. *)
Record event : Type := mkEvent {
  type : string;
  data : option Data.t;
  correlationId : option string
}.

(** [a == b] on two [correlationId] properties: two absent properties
    are equal ([undefined == undefined]), two strings are equal when
    they are the same string, and a string never equals [undefined]. *)
Definition looseEq (a b : option string) : bool :=
  match a, b with
  | None, None => true
  | Some x, Some y => String.eqb x y
  | _, _ => false
  end.

(** [_.reject(list, function (ue) { return ue.correlationId == event.correlationId; })] *)
Definition rejectCorrelation (evt : event) (l : list event) : list event :=
  filter (fun ue => negb (looseEq (correlationId ue) (correlationId evt))) l.

(** ** Snapshot and aggregate state *)

Module Snapshot.
(** The object literal built by [createSnapshot]: its properties are
    [id], [title], [description] and [tags]. *)
Record t : Type := mk {
  id : value;
  title : value;
  description : value;
  tags : list value
}.

(** Reading a scalar property by name; a name that is not a property
    of the object reads as [undefined]. *)
Definition prop (sn : t) (name : string) : value :=
  if String.eqb name "id" then id sn
  else if String.eqb name "title" then title sn
  else if String.eqb name "description" then description sn
  else VUndefined.
End Snapshot.

Record Idea : Type := mkIdea {
  snapshot : option Snapshot.t;
  eventsSinceSnapshot : list event;
  uncommittedEvents : list event;
  ideaId : value;
  title : value;
  description : value;
  tags : list value
}.

(** [new Idea(ideaId, title, description)] *)
Definition newIdea (i t d : value) : Idea :=
  mkIdea None [] [] i t d [].

(** The object returned by the method [toString]. *)
Definition toString (s : Idea) : value * value * value * list value :=
  (ideaId s, title s, description s, tags s).

(** ** The monad of methods *)

Inductive error : Type :=
| TypeError.

Inductive outcome (A : Type) : Type :=
| Return (a : A)
| Throw (e : error)
| OutOfFuel.
Arguments Return {A} a.
Arguments Throw {A} e.
Arguments OutOfFuel {A}.

Definition M (A : Type) : Type := Idea -> outcome A * Idea.

Definition ret {A} (a : A) : M A := fun s => (Return a, s).

Definition bind {A B} (m : M A) (f : A -> M B) : M B :=
  fun s =>
    match m s with
    | (Return a, s') => f a s'
    | (Throw e, s') => (Throw e, s')
    | (OutOfFuel, s') => (OutOfFuel, s')
    end.

Definition throw {A} (e : error) : M A := fun s => (Throw e, s).
Definition outOfFuel {A} : M A := fun s => (OutOfFuel, s).
Definition get : M Idea := fun s => (Return s, s).
Definition modify (f : Idea -> Idea) : M unit := fun s => (Return tt, f s).

Declare Scope js_scope.
Delimit Scope js_scope with js.
Notation "x <- c1 ;; c2" := (bind c1 (fun x => c2))
  (at level 61, c1 at next level, right associativity) : js_scope.
Notation "c1 ;; c2" := (bind c1 (fun _ => c2))
  (at level 61, right associativity) : js_scope.
Local Open Scope js_scope.

(** Final state and result of running a method. *)
Definition exec {A} (m : M A) (s : Idea) : Idea := snd (m s).
Definition result {A} (m : M A) (s : Idea) : outcome A := fst (m s).

(** ** Field assignments *)

Definition set_snapshot (x : option Snapshot.t) (s : Idea) : Idea :=
  mkIdea x (eventsSinceSnapshot s) (uncommittedEvents s)
         (ideaId s) (title s) (description s) (tags s).
Definition set_eventsSinceSnapshot (x : list event) (s : Idea) : Idea :=
  mkIdea (snapshot s) x (uncommittedEvents s)
         (ideaId s) (title s) (description s) (tags s).
Definition set_uncommittedEvents (x : list event) (s : Idea) : Idea :=
  mkIdea (snapshot s) (eventsSinceSnapshot s) x
         (ideaId s) (title s) (description s) (tags s).
Definition set_ideaId (x : value) (s : Idea) : Idea :=
  mkIdea (snapshot s) (eventsSinceSnapshot s) (uncommittedEvents s)
         x (title s) (description s) (tags s).
Definition set_title (x : value) (s : Idea) : Idea :=
  mkIdea (snapshot s) (eventsSinceSnapshot s) (uncommittedEvents s)
         (ideaId s) x (description s) (tags s).
Definition set_description (x : value) (s : Idea) : Idea :=
  mkIdea (snapshot s) (eventsSinceSnapshot s) (uncommittedEvents s)
         (ideaId s) (title s) x (tags s).
Definition set_tags (x : list value) (s : Idea) : Idea :=
  mkIdea (snapshot s) (eventsSinceSnapshot s) (uncommittedEvents s)
         (ideaId s) (title s) (description s) x.

(** ** Tracking changes (lines 139-173) *)

(** [createSnapshot]: [_.clone] returns a primitive unchanged and
    copies an array, so the snapshot's [tags] never alias [this.tags]. *)
Definition createSnapshot : M unit :=
  s <- get ;;
  match snapshot s with
  | None =>
      modify (set_snapshot
                (Some (Snapshot.mk (ideaId s) (title s) (description s) (tags s)))) ;;
      modify (set_eventsSinceSnapshot [])
  | Some _ => ret tt
  end.

(** [reconstructFromSnapshot]: reading a property of [null] throws. *)
Definition reconstructFromSnapshot : M unit :=
  s <- get ;;
  match snapshot s with
  | None => throw TypeError
  | Some sn =>
      modify (set_ideaId (Snapshot.prop sn "ideaId")) ;;
      modify (set_title (Snapshot.prop sn "title")) ;;
      modify (set_description (Snapshot.prop sn "description")) ;;
      modify (set_tags (Snapshot.tags sn))
  end.

Definition allEventsCommited : M unit :=
  s <- get ;;
  match snapshot s with
  | Some _ =>
      reconstructFromSnapshot ;;
      modify (set_snapshot None) ;;
      modify (set_eventsSinceSnapshot [])
  | None => ret tt
  end.

Definition recordThat (e : event) : M unit :=
  s <- get ;;
  match snapshot s with
  | Some _ => modify (set_eventsSinceSnapshot (eventsSinceSnapshot s ++ [e]))
  | None => ret tt
  end.

(** ** Event handlers (lines 62-80) *)

(** [event.data]: the handlers read a property of it, which throws when
    [data] is absent. *)
Definition dataOf (e : event) : M Data.t :=
  match data e with
  | Some d => ret d
  | None => throw TypeError
  end.

Definition applyIdeaWasCreated (e : event) : M unit :=
  d <- dataOf e ;;
  modify (set_ideaId (Data.ideaId d)) ;;
  modify (set_title (Data.title d)) ;;
  modify (set_description (Data.description d)) ;;
  recordThat e.

Definition applyIdeaTitleWasChanged (e : event) : M unit :=
  d <- dataOf e ;;
  modify (set_title (Data.title d)) ;;
  recordThat e.

Definition applyTagWasAddedToAnIdea (e : event) : M unit :=
  d <- dataOf e ;;
  s <- get ;;
  modify (set_tags (tags s ++ [Data.tagId d])) ;;
  recordThat e.

(** ** Dispatch by method name *)

(** The methods of the object whose name is ['apply' + type] for some
    string [type]. *)
Inductive method : Type :=
| MApply
| MIdeaWasCreated
| MIdeaTitleWasChanged
| MTagWasAddedToAnIdea
| MFailedThatIdeaTitleWasChanged
| MFailedThatTagWasAddedToAnIdea.

(** [this['apply' + type]]: [None] when the object has no such
    property, in which case calling it throws. *)
Definition lookupMethod (ty : string) : option method :=
  if String.eqb ty "" then Some MApply
  else if String.eqb ty "IdeaWasCreated" then Some MIdeaWasCreated
  else if String.eqb ty "IdeaTitleWasChanged" then Some MIdeaTitleWasChanged
  else if String.eqb ty "TagWasAddedToAnIdea" then Some MTagWasAddedToAnIdea
  else if String.eqb ty "FailedThatIdeaTitleWasChanged"
       then Some MFailedThatIdeaTitleWasChanged
  else if String.eqb ty "FailedThatTagWasAddedToAnIdea"
       then Some MFailedThatTagWasAddedToAnIdea
  else None.

(** The confirmation step of [initializeState] (lines 95-99). *)
Definition removeConfirmed (evt : event) : M unit :=
  s <- get ;;
  modify (set_uncommittedEvents (rejectCorrelation evt (uncommittedEvents s))).

(** The check that ends an iteration of [initializeState]
    (lines 104-106). *)
Definition checkAllCommitted : M unit :=
  s <- get ;;
  if Nat.eqb 0 (List.length (uncommittedEvents s)) then allEventsCommited else ret tt.

(** The loop of [initializeState] (lines 89-108) over a dispatcher
    [call] standing for [this[functionName](event)]. *)
Fixpoint initializeStateWith (call : event -> M unit)
         (stream : list event) (fromSnapshot : bool) : M unit :=
  match stream with
  | [] => ret tt
  | evt :: rest =>
      (if negb fromSnapshot then removeConfirmed evt else ret tt) ;;
      call evt ;;
      (if negb fromSnapshot then checkAllCommitted else ret tt) ;;
      initializeStateWith call rest fromSnapshot
  end.

(** [processFailedEvent] (lines 118-127), with the replay loop passed
    in.  The array handed to [initializeState] is the one just stored
    in [this.eventsSinceSnapshot]: the elements visited are those it
    holds at that moment, while [recordThat] keeps pushing onto it. *)
Definition processFailedEventWith
           (replay : list event -> M unit) (evt : event) : M unit :=
  s <- get ;;
  modify (set_eventsSinceSnapshot (rejectCorrelation evt (eventsSinceSnapshot s))) ;;
  reconstructFromSnapshot ;;
  s' <- get ;;
  replay (eventsSinceSnapshot s').

(** [this['apply' + event.type](event)], with [fuel] bounding the depth
    of nested dispatch. *)
Fixpoint dispatch (fuel : nat) (evt : event) {struct fuel} : M unit :=
  match fuel with
  | O => outOfFuel
  | S n =>
      match lookupMethod (type evt) with
      | None => throw TypeError
      | Some MIdeaWasCreated => applyIdeaWasCreated evt
      | Some MIdeaTitleWasChanged => applyIdeaTitleWasChanged evt
      | Some MTagWasAddedToAnIdea => applyTagWasAddedToAnIdea evt
      | Some MFailedThatIdeaTitleWasChanged
      | Some MFailedThatTagWasAddedToAnIdea =>
          processFailedEventWith
            (fun l => initializeStateWith (dispatch n) l true) evt
      | Some MApply =>
          (* the method [apply] itself, reached with [type] empty *)
          dispatch n evt ;;
          s <- get ;;
          modify (set_uncommittedEvents (uncommittedEvents s ++ [evt]))
      end
  end.

(** [apply] (lines 82-87). *)
Definition apply_ (fuel : nat) (evt : event) : M unit :=
  dispatch fuel evt ;;
  s <- get ;;
  modify (set_uncommittedEvents (uncommittedEvents s ++ [evt])).

(** [initializeState] (lines 89-108); a call without the second
    argument has [fromSnapshot] undefined, that is, falsy. *)
Definition initializeState (fuel : nat) (stream : list event)
           (fromSnapshot : bool) : M unit :=
  initializeStateWith (dispatch fuel) stream fromSnapshot.

Definition processFailedEvent (fuel : nat) (evt : event) : M unit :=
  processFailedEventWith (fun l => initializeState fuel l true) evt.

(** ** Commands (lines 34-60) *)

Definition titleChangedEvent (i newTitle : value) : event :=
  mkEvent "IdeaTitleWasChanged"
          (Some (Data.mk i newTitle VUndefined VUndefined))
          (Some (String.append "my-ref-title" (toStr newTitle))).

Definition tagAddedEvent (i tagId : value) : event :=
  mkEvent "TagWasAddedToAnIdea"
          (Some (Data.mk i VUndefined VUndefined tagId))
          (Some (String.append "my-ref-" (toStr tagId))).

Definition changeTitle (fuel : nat) (newTitle : value) : M unit :=
  createSnapshot ;;
  s <- get ;;
  apply_ fuel (titleChangedEvent (ideaId s) newTitle).

Definition addTag (fuel : nat) (tagId : value) : M unit :=
  createSnapshot ;;
  s <- get ;;
  apply_ fuel (tagAddedEvent (ideaId s) tagId).

(** ** The test fixture *)

Definition idea123 : Idea := newIdea (VNum 123) (VStr "1st idea") VUndefined.

Definition remoteTitle (t : string) : event :=
  mkEvent "IdeaTitleWasChanged"
          (Some (Data.mk VUndefined (VStr t) VUndefined VUndefined)) None.

(** ** The materialized fields and their pure replay *)

(** The four fields reported by [toString]. *)
Definition view : Type := (value * value * value * list value)%type.

(** An event that one of the three domain handlers accepts: the handler
    exists and [event.data] is present. *)
Definition isDomainEvent (e : event) : bool :=
  match lookupMethod (type e), data e with
  | Some MIdeaWasCreated, Some _
  | Some MIdeaTitleWasChanged, Some _
  | Some MTagWasAddedToAnIdea, Some _ => true
  | _, _ => false
  end.

(** A rejection notice: one of the two [applyFailedThat...] methods
    handles it. *)
Definition isRejection (e : event) : bool :=
  match lookupMethod (type e) with
  | Some MFailedThatIdeaTitleWasChanged
  | Some MFailedThatTagWasAddedToAnIdea => true
  | _ => false
  end.

(** What a domain event does to the fields, read off lines 62-80
    without the bookkeeping; other events leave the fields alone. *)
Definition applyView (v : view) (e : event) : view :=
  let '(i, t, d, g) := v in
  match lookupMethod (type e), data e with
  | Some MIdeaWasCreated, Some p => (Data.ideaId p, Data.title p, Data.description p, g)
  | Some MIdeaTitleWasChanged, Some p => (i, Data.title p, d, g)
  | Some MTagWasAddedToAnIdea, Some p => (i, t, d, g ++ [Data.tagId p])
  | _, _ => v
  end.

(** Replaying a log, in its order, over given fields. *)
Definition replayView (v : view) (l : list event) : view :=
  fold_left applyView l v.

(** The fields stored in a snapshot. *)
Definition snapshotView (sn : Snapshot.t) : view :=
  (Snapshot.id sn, Snapshot.title sn, Snapshot.description sn, Snapshot.tags sn).

(** Title, description and tags of a view, leaving the identifier out. *)
Definition content (v : view) : value * value * list value :=
  let '(_, t, d, g) := v in (t, d, g).

Definition withView (v : view) (s : Idea) : Idea :=
  let '(i, t, d, g) := v in
  mkIdea (snapshot s) (eventsSinceSnapshot s) (uncommittedEvents s) i t d g.

(** A string [correlationId] that is not the empty string. *)
Definition hasStringId (e : event) : Prop :=
  exists c, correlationId e = Some c /\ c <> "".

(** ** States that the public operations produce *)

Inductive reachable : Idea -> Prop :=
| reach_new : forall i t d, reachable (newIdea i t d)
| reach_changeTitle : forall s fuel v,
    reachable s -> reachable (exec (changeTitle fuel v) s)
| reach_addTag : forall s fuel v,
    reachable s -> reachable (exec (addTag fuel v) s)
| reach_initializeState : forall s fuel stream,
    reachable s -> reachable (exec (initializeState fuel stream false) s).

(** ** Invariants of the reachable states *)

(** The log holds domain events only. *)
Definition logOk (s : Idea) : Prop :=
  forallb isDomainEvent (eventsSinceSnapshot s) = true.

(** Every queue entry carries a non-empty string [correlationId]. *)
Definition queueOk (s : Idea) : Prop :=
  Forall hasStringId (uncommittedEvents s).

(** ** Closed forms of single steps, used in the statements *)

(** The log after a domain event has been handled. *)
Definition logAfter (s : Idea) (e : event) : list event :=
  match snapshot s with
  | Some _ => eventsSinceSnapshot s ++ [e]
  | None => eventsSinceSnapshot s
  end.

(** Snapshot and log once [createSnapshot] has run. *)

Definition snapshotOrNew (s : Idea) : Snapshot.t :=
  match snapshot s with
  | Some sn => sn
  | None => Snapshot.mk (ideaId s) (title s) (description s) (tags s)
  end.

Definition logOrNew (s : Idea) : list event :=
  match snapshot s with
  | Some _ => eventsSinceSnapshot s
  | None => []
  end.

(** The state after [allEventsCommited]. *)
Definition discarded (s : Idea) : Idea :=
  match snapshot s with
  | Some sn =>
      mkIdea None [] (uncommittedEvents s)
             (Snapshot.prop sn "ideaId") (Snapshot.title sn)
             (Snapshot.description sn) (Snapshot.tags sn)
  | None => s
  end.

(** The state after the end-of-iteration check. *)
Definition checked (s : Idea) : Idea :=
  match uncommittedEvents s with
  | [] => discarded s
  | _ :: _ => s
  end.

(** ** Scenario states and events, built on the test fixture *)

(** A title change [E1] and a tag addition [E2], both pending. *)
Definition pendingTitleAndTag : Idea :=
  exec (changeTitle 1 (VStr "a") ;; addTag 1 (VNum 1)) idea123.

Definition rejectTag1 : event :=
  mkEvent "FailedThatTagWasAddedToAnIdea" None (Some "my-ref-1").

Definition confirmTitleA : event :=
  mkEvent "IdeaTitleWasChanged"
          (Some (Data.mk (VNum 123) (VStr "a") VUndefined VUndefined))
          (Some "my-ref-titlea").

Definition snapshot123 : Snapshot.t :=
  Snapshot.mk (VNum 123) (VStr "1st idea") VUndefined [].

(** A title change alone, pending. *)
Definition pendingTitle : Idea := exec (changeTitle 1 (VStr "a")) idea123.

(** The state in which the reconciliation of [confirmTitleA] observes
    the queue empty: the confirmation step and the handler have run. *)
Definition confirmedTitle : Idea :=
  exec (removeConfirmed confirmTitleA ;; dispatch 1 confirmTitleA) pendingTitle.

Definition rejectTitleA : event :=
  mkEvent "FailedThatIdeaTitleWasChanged" None (Some "my-ref-titlea").

(** ** The dead helper [createIdea] (lines 13-32) *)

(** The event literal of [createIdea]; the handlers read none of its
    other properties ([account_id], [user_id], [project_id], [meta]). *)
Definition ideaWasCreatedEvent : event :=
  mkEvent "IdeaWasCreated"
          (Some (Data.mk (VNum 123) (VStr "My new idea")
                         (VStr "Description of an Idea") VUndefined))
          None.

(** [createIdea(title, description)]: the constructor is called with
    two arguments, which land in [ideaId] and [title]; the result is
    the outcome of [apply] and the new object. *)
Definition createIdea (fuel : nat) (title description : value) : outcome unit * Idea :=
  apply_ fuel ideaWasCreatedEvent (newIdea title description VUndefined).

(** ** The repository (lines 176-189) *)

Section Repository.

(** [ToNumber(s) == z] for a string [s] and a number [z], the one case
    of [==] that the value model leaves to the language. *)
Variable stringEqualsNumber : string -> Z -> bool.

(** [a == b] on values. *)
Definition looseEqValue (a b : value) : bool :=
  match a, b with
  | VUndefined, VUndefined => true
  | VNum x, VNum y => Z.eqb x y
  | VStr x, VStr y => String.eqb x y
  | VNum x, VStr y => stringEqualsNumber y x
  | VStr x, VNum y => stringEqualsNumber x y
  | _, _ => false
  end.

Record IdeaInMemoryRepository : Type := mkRepository {
  ideas : list Idea
}.

(** [_.find(this.ideas, function (idea) { return idea.ideaId == ideaId; })];
    [None] stands for [undefined]. *)
Definition find (r : IdeaInMemoryRepository) (i : value) : option Idea :=
  List.find (fun idea => looseEqValue (ideaId idea) i) (ideas r).

Definition createInMemoryRepository (l : list Idea) : IdeaInMemoryRepository :=
  mkRepository l.

End Repository.

(** ** Sequences of local commands *)

Inductive command : Type :=
| ChangeTitle (newTitle : value)
| AddTag (tagId : value).

Definition runCommand (fuel : nat) (c : command) : M unit :=
  match c with
  | ChangeTitle v => changeTitle fuel v
  | AddTag v => addTag fuel v
  end.

Definition command_eq_dec (a b : command) : {a = b} + {a <> b}.
Proof. decide equality; apply value_eq_dec. Defined.

(** The commands called one after the other. *)
Fixpoint runCommands (fuel : nat) (cs : list command) : M unit :=
  match cs with
  | [] => ret tt
  | c :: rest => runCommand fuel c ;; runCommands fuel rest
  end.

(** The event a command builds on an aggregate whose identifier is [i]. *)
Definition eventOf (i : value) (c : command) : event :=
  match c with
  | ChangeTitle v => titleChangedEvent i v
  | AddTag v => tagAddedEvent i v
  end.

(** ** Closed forms for whole batches *)

(** The queue once the confirmation step has run for each event of a
    batch. *)
Definition rejectAll (batch : list event) (q : list event) : list event :=
  fold_left (fun acc e => rejectCorrelation e acc) batch q.

(** The log after a batch of domain events was handled without the
    snapshot being cleared in between. *)
Definition logAfterAll (s : Idea) (batch : list event) : list event :=
  match snapshot s with
  | Some _ => eventsSinceSnapshot s ++ batch
  | None => eventsSinceSnapshot s
  end.

(** The state after the confirmation step and the handler of a domain
    event, before the end-of-iteration check. *)
Definition handled (s : Idea) (e : event) : Idea :=
  withView (applyView (toString s) e)
           (set_eventsSinceSnapshot (logAfter s e)
              (set_uncommittedEvents (rejectCorrelation e (uncommittedEvents s)) s)).

(** An event that makes its handler throw: no method bears the name,
    or a domain handler finds no [event.data]. *)
Definition isUnhandled (e : event) : bool :=
  match lookupMethod (type e), data e with
  | None, _ => true
  | Some MIdeaWasCreated, None
  | Some MIdeaTitleWasChanged, None
  | Some MTagWasAddedToAnIdea, None => true
  | _, _ => false
  end.

(** The snapshot only exists together with its log. *)
Definition logTracked (s : Idea) : Prop :=
  snapshot s = None -> eventsSinceSnapshot s = [].

(** The queue holds only events that a domain handler accepts. *)
Definition queueDomain (s : Idea) : Prop :=
  forallb isDomainEvent (uncommittedEvents s) = true.

(** * Properties *)

Ltac unfold_monad :=
  unfold exec, result, bind, get, modify, ret, throw, outOfFuel in *.

Ltac unfold_methods :=
  unfold removeConfirmed, checkAllCommitted, allEventsCommited,
    reconstructFromSnapshot, createSnapshot, recordThat,
    applyIdeaWasCreated, applyIdeaTitleWasChanged, applyTagWasAddedToAnIdea,
    dataOf in *.

(** ** Numbers as strings, run *)

Example numberToString_small :
  map numberToString [0; 1; 123; -5; 9007199254740991]%Z
  = ["0"; "1"; "123"; "-5"; "9007199254740991"].
Proof. vm_compute. reflexivity. Qed.

Example numberToString_large :
  map numberToString
      [1152921504606846976; 100000000000000000000; 1000000000000000000000;
       1500000000000000000000; -1000000000000000000000;
       123456789012345678901234]%Z
  = ["1152921504606847000"; "100000000000000000000"; "1e+21";
     "1.5e+21"; "-1e+21"; "1.2345678901234569e+23"].
Proof. vm_compute. reflexivity. Qed.

Example correlationId_of_large_tag :
  correlationId (tagAddedEvent (VNum 123) (VNum 1000000000000000000000))
  = Some "my-ref-1e+21".
Proof. vm_compute. reflexivity. Qed.

(** Up to [2^53] the string is the integer in decimal digits. *)
Lemma numberToString_safe : forall z,
  (0 <= z < twoTo53)%Z -> numberToString z = decimal z.
Proof.
  intros z [H0 H1]. unfold numberToString, positiveToString, roundToDouble.
  apply Z.ltb_ge in H0. rewrite H0.
  apply Z.ltb_lt in H1. rewrite H1, H1.
  assert (H21 : Z.ltb z (Z.pow 10 21) = true).
  { apply Z.ltb_lt. apply Z.ltb_lt in H1. eapply Z.lt_trans; [exact H1|].
    vm_compute. reflexivity. }
  now rewrite H21.
Qed.

(** ** The test cases of [es.js] (lines 205-344), run *)

Example applies_server_events :
  title (exec (initializeState 1 [remoteTitle "Another title"; remoteTitle "Last title"] false)
              idea123) = VStr "Last title".
Proof. reflexivity. Qed.

Example starts_storing_new_events :
  List.length (eventsSinceSnapshot
            (exec (changeTitle 1 (VStr "Awesome idea") ;;
                   initializeState 1 [remoteTitle "Title from server"] false ;;
                   addTag 1 (VNum 1)) idea123)) = 3.
Proof. reflexivity. Qed.

(** ** Views *)

Example uncommitted_contains_events_not_yet_confirmed :
  map type (uncommittedEvents
              (exec (changeTitle 1 (VStr "New title") ;; addTag 1 (VNum 1234)) idea123))
  = ["IdeaTitleWasChanged"; "TagWasAddedToAnIdea"].
Proof. reflexivity. Qed.

Example uncommitted_truncated_when_committed :
  let s := exec (changeTitle 1 (VStr "New title") ;; addTag 1 (VNum 1234)) idea123 in
  uncommittedEvents (exec (initializeState 1 (uncommittedEvents s) false) s) = [].
Proof. reflexivity. Qed.

Example uncommitted_truncated_when_rejected :
  let s := exec (changeTitle 1 (VStr "This title is completely off")) idea123 in
  map correlationId (uncommittedEvents s) = [Some "my-ref-titleThis title is completely off"] /\
  uncommittedEvents
    (exec (initializeState 2
             [mkEvent "FailedThatIdeaTitleWasChanged" None
                      (Some "my-ref-titleThis title is completely off")] false) s) = [].
Proof. split; reflexivity. Qed.

Example state_updated_from_server :
  let s := exec (initializeState 1
                   [mkEvent "TagWasAddedToAnIdea"
                            (Some (Data.mk (VNum 123) VUndefined VUndefined (VNum 1))) None;
                    mkEvent "IdeaTitleWasChanged"
                            (Some (Data.mk (VNum 123) (VStr "Check this one")
                                           VUndefined VUndefined)) None;
                    mkEvent "TagWasAddedToAnIdea"
                            (Some (Data.mk (VNum 123) VUndefined VUndefined (VNum 3))) None]
                   false) idea123 in
  title s = VStr "Check this one" /\ tags s = [VNum 1; VNum 3].
Proof. split; reflexivity. Qed.

Example state_reverted_when_user_event_fails :
  let s1 := exec (initializeState 1
                    [mkEvent "IdeaTitleWasChanged"
                             (Some (Data.mk (VNum 123) (VStr "Try to reconstruct me")
                                            VUndefined VUndefined)) None] false) idea123 in
  let s2 := exec (changeTitle 1 (VStr "This title will fail, wuhahah!!!")) s1 in
  title s2 = VStr "This title will fail, wuhahah!!!" /\
  title (exec (initializeState 2
                 [mkEvent "FailedThatIdeaTitleWasChanged" None
                          (hd None (map correlationId (uncommittedEvents s2)))] false) s2)
  = VStr "Try to reconstruct me".
Proof. split; reflexivity. Qed.

Lemma withView_log : forall v s,
  eventsSinceSnapshot (withView v s) = eventsSinceSnapshot s.
Proof. intros [[[i t] d] g] s; reflexivity. Qed.

Lemma withView_snapshot : forall v s, snapshot (withView v s) = snapshot s.
Proof. intros [[[i t] d] g] s; reflexivity. Qed.

Lemma withView_queue : forall v s,
  uncommittedEvents (withView v s) = uncommittedEvents s.
Proof. intros [[[i t] d] g] s; reflexivity. Qed.

Lemma toString_withView : forall v s, toString (withView v s) = v.
Proof. intros [[[i t] d] g] s; reflexivity. Qed.

(** ** Rejecting by correlation id *)

Lemma looseEq_refl : forall a, looseEq a a = true.
Proof. destruct a as [x|]; simpl; [apply String.eqb_refl | reflexivity]. Qed.

Lemma rejectCorrelation_app : forall evt l1 l2,
  rejectCorrelation evt (l1 ++ l2) = rejectCorrelation evt l1 ++ rejectCorrelation evt l2.
Proof. intros; unfold rejectCorrelation; apply filter_app. Qed.

Lemma rejectCorrelation_Forall : forall (P : event -> Prop) evt l,
  Forall P l -> Forall P (rejectCorrelation evt l).
Proof.
  intros P evt l H. unfold rejectCorrelation.
  rewrite Forall_forall in *. intros x Hx.
  apply filter_In in Hx. apply H, Hx.
Qed.

Lemma rejectCorrelation_absent : forall evt l,
  correlationId evt = None ->
  Forall hasStringId l ->
  rejectCorrelation evt l = l.
Proof.
  intros evt l Hnone. induction 1 as [|e l [c [Hc _]] _ IH]; simpl.
  - reflexivity.
  - rewrite Hc, Hnone. simpl. now rewrite IH.
Qed.

(** ** The uncommitted queue is touched only by the confirmation step
       and by [apply] *)

Section LoopFrame.
Variable call : event -> M unit.
Variable P : Idea -> Prop.
Hypothesis call_keeps : forall e s, P s -> P (exec (call e) s).

Lemma replay_keeps : forall l s,
  P s -> P (exec (initializeStateWith call l true) s).
Proof.
  induction l as [|e l IH]; intros s Hs; simpl.
  - exact Hs.
  - pose proof (call_keeps e s Hs) as H1. unfold_monad. simpl.
    destruct (call e s) as [[[]| |] s1]; simpl in *; auto.
Qed.
End LoopFrame.

Lemma dispatch_queue : forall fuel evt s,
  uncommittedEvents (exec (dispatch fuel evt) s) = uncommittedEvents s /\
  (lookupMethod (type evt) = Some MApply -> result (dispatch fuel evt) s = OutOfFuel).
Proof.
  induction fuel as [|n IH]; intros evt s.
  - split; reflexivity.
  - simpl. destruct (lookupMethod (type evt)) as [[]|] eqn:Hm.
    + destruct (IH evt s) as [Hq Hr]. specialize (Hr Hm).
      unfold_monad. destruct (dispatch n evt s) as [[[]| |] s1];
        simpl in *; try discriminate; auto.
    + destruct s as [sn lg q i t d g]; unfold_methods; unfold_monad.
      destruct (data evt); destruct sn; simpl; split; congruence.
    + destruct s as [sn lg q i t d g]; unfold_methods; unfold_monad.
      destruct (data evt); destruct sn; simpl; split; congruence.
    + destruct s as [sn lg q i t d g]; unfold_methods; unfold_monad.
      destruct (data evt); destruct sn; simpl; split; congruence.
    + split; [|discriminate].
      destruct s as [sn lg q i t d g].
      unfold processFailedEventWith; unfold_methods; unfold_monad.
      destruct sn as [sn|]; simpl; [|reflexivity].
      apply (replay_keeps (dispatch n) (fun s' => uncommittedEvents s' = q)); auto.
      intros e s' Hs'. unfold exec. rewrite (proj1 (IH e s')). exact Hs'.
    + split; [|discriminate].
      destruct s as [sn lg q i t d g].
      unfold processFailedEventWith; unfold_methods; unfold_monad.
      destruct sn as [sn|]; simpl; [|reflexivity].
      apply (replay_keeps (dispatch n) (fun s' => uncommittedEvents s' = q)); auto.
      intros e s' Hs'. unfold exec. rewrite (proj1 (IH e s')). exact Hs'.
    + split; [reflexivity|discriminate].
Qed.

Lemma dispatch_uncommitted : forall fuel evt s,
  uncommittedEvents (exec (dispatch fuel evt) s) = uncommittedEvents s.
Proof. intros; apply dispatch_queue. Qed.

Lemma allEventsCommited_uncommitted : forall s,
  uncommittedEvents (exec allEventsCommited s) = uncommittedEvents s.
Proof. intros [[sn|] lg q i t d g]; reflexivity. Qed.

Lemma checkAllCommitted_uncommitted : forall s,
  uncommittedEvents (exec checkAllCommitted s) = uncommittedEvents s.
Proof.
  intros s. unfold checkAllCommitted, exec, bind, get.
  destruct (Nat.eqb 0 (List.length (uncommittedEvents s))).
  - apply allEventsCommited_uncommitted.
  - reflexivity.
Qed.

(** ** Domain events: what one dispatch and what a replay do *)

Lemma dispatch_domain : forall n e s,
  isDomainEvent e = true ->
  dispatch (S n) e s =
  (Return tt,
   withView (applyView (toString s) e) (set_eventsSinceSnapshot (logAfter s e) s)).
Proof.
  intros n e [sn lg q i t d g] He.
  unfold isDomainEvent in He. unfold applyView, toString, logAfter. simpl.
  destruct (lookupMethod (type e)) as [[]|]; try discriminate;
    unfold_methods; unfold_monad;
    destruct (data e); try discriminate; destruct sn; reflexivity.
Qed.

Lemma replay_domain : forall n l s sn,
  snapshot s = Some sn ->
  forallb isDomainEvent l = true ->
  initializeStateWith (dispatch (S n)) l true s =
  (Return tt,
   withView (replayView (toString s) l)
            (set_eventsSinceSnapshot (eventsSinceSnapshot s ++ l) s)).
Proof.
  induction l as [|e l IH]; intros s sn Hsn Hl.
  - destruct s as [sn' lg q i t d g]. simpl. now rewrite app_nil_r.
  - simpl in Hl. apply andb_true_iff in Hl as [He Hl].
    cbn [initializeStateWith negb]. unfold bind at 1 2. unfold ret at 1.
    rewrite (dispatch_domain n e s He). unfold bind, ret at 1.
    destruct s as [sn' lg q i t d g]. simpl in Hsn. subst sn'.
    unfold logAfter, toString. cbn [snapshot eventsSinceSnapshot ideaId title description tags
      uncommittedEvents set_eventsSinceSnapshot].
    destruct (applyView (i, t, d, g) e) as [[[i1 t1] d1] g1] eqn:Hv.
    cbn [withView snapshot eventsSinceSnapshot uncommittedEvents].
    rewrite (IH _ sn); [|reflexivity|exact Hl].
    unfold toString, replayView.
    cbn [snapshot eventsSinceSnapshot ideaId title description tags
      uncommittedEvents set_eventsSinceSnapshot fold_left].
    rewrite Hv, <- app_assoc. reflexivity.
Qed.

(** The identifier a replay starts from does not influence title,
    description and tags. *)
Lemma content_replayView : forall l i1 i2 t d g,
  content (replayView (i1, t, d, g) l) = content (replayView (i2, t, d, g) l).
Proof.
  unfold replayView.
  induction l as [|e l IH]; intros i1 i2 t d g; simpl.
  - reflexivity.
  - destruct (lookupMethod (type e)) as [[]|]; auto;
      destruct (data e); auto.
Qed.

(** ** The log of a reachable state holds domain events *)

Lemma forallb_reject : forall (f : event -> bool) evt l,
  forallb f l = true -> forallb f (rejectCorrelation evt l) = true.
Proof.
  intros f evt l H. rewrite forallb_forall in *. intros x Hx.
  apply filter_In in Hx. apply H, Hx.
Qed.

Lemma dispatch_logOk : forall fuel e s,
  logOk s -> logOk (exec (dispatch fuel e) s).
Proof.
  unfold logOk.
  induction fuel as [|n IH]; intros e s Hs; [exact Hs|].
  destruct (isDomainEvent e) eqn:He.
  - unfold exec. rewrite (dispatch_domain n e s He). cbn [snd].
    rewrite withView_log. unfold logAfter.
    destruct s as [[sn|] lg q i t d g];
      cbn [set_eventsSinceSnapshot eventsSinceSnapshot snapshot] in *; auto.
    rewrite forallb_app, Hs. simpl. now rewrite He.
  - unfold isDomainEvent in He. simpl.
    destruct (lookupMethod (type e)) as [[]|] eqn:Hm.
    + pose proof (IH e s Hs) as H1. unfold_monad.
      destruct (dispatch n e s) as [[[]| |] s1]; simpl in *; auto.
    + destruct (data e) eqn:Hd; [discriminate|].
      unfold_methods; unfold_monad. rewrite Hd. exact Hs.
    + destruct (data e) eqn:Hd; [discriminate|].
      unfold_methods; unfold_monad. rewrite Hd. exact Hs.
    + destruct (data e) eqn:Hd; [discriminate|].
      unfold_methods; unfold_monad. rewrite Hd. exact Hs.
    + destruct s as [sn lg q i t d g]. simpl in Hs.
      unfold processFailedEventWith; unfold_methods; unfold_monad.
      destruct sn as [sn|]; simpl; [|now apply forallb_reject].
      apply (replay_keeps (dispatch n)
               (fun s' => forallb isDomainEvent (eventsSinceSnapshot s') = true)).
      * intros e' s' Hs'. apply IH, Hs'.
      * simpl. now apply forallb_reject.
    + destruct s as [sn lg q i t d g]. simpl in Hs.
      unfold processFailedEventWith; unfold_methods; unfold_monad.
      destruct sn as [sn|]; simpl; [|now apply forallb_reject].
      apply (replay_keeps (dispatch n)
               (fun s' => forallb isDomainEvent (eventsSinceSnapshot s') = true)).
      * intros e' s' Hs'. apply IH, Hs'.
      * simpl. now apply forallb_reject.
    + exact Hs.
Qed.

(** ** The two commands, in closed form *)

Lemma changeTitle_run : forall n v s,
  changeTitle (S n) v s =
  (Return tt,
   let e := titleChangedEvent (ideaId s) v in
   mkIdea (Some (snapshotOrNew s)) (logOrNew s ++ [e]) (uncommittedEvents s ++ [e])
          (ideaId s) v (description s) (tags s)).
Proof. intros n v [[sn|] lg q i t d g]; reflexivity. Qed.

Lemma addTag_run : forall n v s,
  addTag (S n) v s =
  (Return tt,
   let e := tagAddedEvent (ideaId s) v in
   mkIdea (Some (snapshotOrNew s)) (logOrNew s ++ [e]) (uncommittedEvents s ++ [e])
          (ideaId s) (title s) (description s) (tags s ++ [v])).
Proof. intros n v [[sn|] lg q i t d g]; reflexivity. Qed.

Lemma changeTitle_out_of_fuel : forall v s,
  changeTitle 0 v s =
  (OutOfFuel,
   mkIdea (Some (snapshotOrNew s)) (logOrNew s) (uncommittedEvents s)
          (ideaId s) (title s) (description s) (tags s)).
Proof. intros v [[sn|] lg q i t d g]; reflexivity. Qed.

Lemma addTag_out_of_fuel : forall v s,
  addTag 0 v s =
  (OutOfFuel,
   mkIdea (Some (snapshotOrNew s)) (logOrNew s) (uncommittedEvents s)
          (ideaId s) (title s) (description s) (tags s)).
Proof. intros v [[sn|] lg q i t d g]; reflexivity. Qed.

Lemma titleChangedEvent_id : forall i v, hasStringId (titleChangedEvent i v).
Proof. intros i v. eexists; split; [reflexivity|discriminate]. Qed.

Lemma tagAddedEvent_id : forall i v, hasStringId (tagAddedEvent i v).
Proof. intros i v. eexists; split; [reflexivity|discriminate]. Qed.

Lemma titleChangedEvent_domain : forall i v, isDomainEvent (titleChangedEvent i v) = true.
Proof. reflexivity. Qed.

Lemma tagAddedEvent_domain : forall i v, isDomainEvent (tagAddedEvent i v) = true.
Proof. reflexivity. Qed.

(** ** Reconciliation keeps what each of its three steps keeps *)

Section ReconcileFrame.
Variable call : event -> M unit.
Variable P : Idea -> Prop.
Hypothesis call_keeps : forall e s, P s -> P (exec (call e) s).
Hypothesis confirm_keeps : forall e s, P s -> P (exec (removeConfirmed e) s).
Hypothesis check_keeps : forall s, P s -> P (exec checkAllCommitted s).

Lemma reconcile_keeps : forall l s,
  P s -> P (exec (initializeStateWith call l false) s).
Proof.
  induction l as [|e l IH]; intros s Hs; [exact Hs|].
  pose proof (confirm_keeps e s Hs) as H1.
  cbn [initializeStateWith negb]. unfold exec in *. unfold bind.
  destruct (removeConfirmed e s) as [[[]| |] s1]; cbn [snd] in *; auto.
  pose proof (call_keeps e s1 H1) as H2.
  destruct (call e s1) as [[[]| |] s2]; cbn [snd] in *; auto.
  pose proof (check_keeps s2 H2) as H3.
  destruct (checkAllCommitted s2) as [[[]| |] s3]; cbn [snd] in *; auto.
Qed.
End ReconcileFrame.

Lemma initializeState_logOk : forall fuel l s,
  logOk s -> logOk (exec (initializeState fuel l false) s).
Proof.
  intros fuel l s. unfold initializeState.
  apply (reconcile_keeps (dispatch fuel) logOk).
  - intros e s'. apply dispatch_logOk.
  - intros e s' H. exact H.
  - intros [[sn|] lg q i t d g] H; unfold logOk, checkAllCommitted, exec, bind, get in *;
      cbn [uncommittedEvents]; destruct (Nat.eqb 0 (List.length q)); auto.
Qed.

Lemma initializeState_queueOk : forall fuel l s,
  queueOk s -> queueOk (exec (initializeState fuel l false) s).
Proof.
  intros fuel l s. unfold initializeState.
  apply (reconcile_keeps (dispatch fuel) queueOk); unfold queueOk.
  - intros e s' H. now rewrite dispatch_uncommitted.
  - intros e s' H. cbn. now apply rejectCorrelation_Forall.
  - intros s' H. now rewrite checkAllCommitted_uncommitted.
Qed.

Lemma logOrNew_ok : forall s, logOk s -> forallb isDomainEvent (logOrNew s) = true.
Proof. intros [[sn|] lg q i t d g] H; auto. Qed.

Theorem reachable_logOk : forall s, reachable s -> logOk s.
Proof.
  induction 1 as [i t d | s fuel v _ IH | s fuel v _ IH | s fuel l _ IH].
  - reflexivity.
  - unfold exec, logOk. destruct fuel as [|n].
    + rewrite changeTitle_out_of_fuel. now apply logOrNew_ok.
    + rewrite changeTitle_run. cbn. rewrite forallb_app, (logOrNew_ok s IH). reflexivity.
  - unfold exec, logOk. destruct fuel as [|n].
    + rewrite addTag_out_of_fuel. now apply logOrNew_ok.
    + rewrite addTag_run. cbn. rewrite forallb_app, (logOrNew_ok s IH). reflexivity.
  - now apply initializeState_logOk.
Qed.

Theorem reachable_queueOk : forall s, reachable s -> queueOk s.
Proof.
  induction 1 as [i t d | s fuel v _ IH | s fuel v _ IH | s fuel l _ IH].
  - constructor.
  - unfold exec, queueOk. destruct fuel as [|n].
    + rewrite changeTitle_out_of_fuel. exact IH.
    + rewrite changeTitle_run. cbn. apply Forall_app. split; [exact IH|].
      constructor; [apply titleChangedEvent_id|constructor].
  - unfold exec, queueOk. destruct fuel as [|n].
    + rewrite addTag_out_of_fuel. exact IH.
    + rewrite addTag_run. cbn. apply Forall_app. split; [exact IH|].
      constructor; [apply tagAddedEvent_id|constructor].
  - now apply initializeState_queueOk.
Qed.

(** ** Rejections *)

(** Handling a rejection while a snapshot exists: the log loses the
    entries bearing the rejected correlation id, the fields are read
    back from the snapshot and the shortened log is replayed over them;
    the replay goes through [recordThat], which pushes every replayed
    event onto the log again. *)
Lemma dispatch_rejection : forall n rej s sn,
  snapshot s = Some sn ->
  logOk s ->
  isRejection rej = true ->
  let log' := rejectCorrelation rej (eventsSinceSnapshot s) in
  dispatch (S (S n)) rej s =
  (Return tt,
   withView (replayView (Snapshot.prop sn "ideaId", Snapshot.title sn,
                         Snapshot.description sn, Snapshot.tags sn) log')
            (set_eventsSinceSnapshot (log' ++ log') s)).
Proof.
  intros n rej [sn' lg q i t d g] sn Hsn Hlog Hrej log'.
  cbn in Hsn. subst sn'. unfold logOk in Hlog. cbn in Hlog.
  assert (Hl : forallb isDomainEvent log' = true)
    by (apply forallb_reject; exact Hlog).
  unfold isRejection in Hrej. cbn [dispatch].
  destruct (lookupMethod (type rej)) as [[]|]; try discriminate.
  - unfold processFailedEventWith; unfold_methods; unfold_monad.
    cbn [snapshot eventsSinceSnapshot set_eventsSinceSnapshot set_ideaId set_title
         set_description set_tags uncommittedEvents ideaId title description tags].
    fold log'.
    rewrite (replay_domain n log' _ sn); [reflexivity|reflexivity|exact Hl].
  - unfold processFailedEventWith; unfold_methods; unfold_monad.
    cbn [snapshot eventsSinceSnapshot set_eventsSinceSnapshot set_ideaId set_title
         set_description set_tags uncommittedEvents ideaId title description tags].
    fold log'.
    rewrite (replay_domain n log' _ sn); [reflexivity|reflexivity|exact Hl].
Qed.

(** A rejection that arrives when no snapshot exists makes
    [reconstructFromSnapshot] read a property of [null]. *)
Lemma dispatch_rejection_no_snapshot : forall n rej s,
  snapshot s = None ->
  isRejection rej = true ->
  result (dispatch (S n) rej) s = Throw TypeError.
Proof.
  intros n rej [sn lg q i t d g] Hsn Hrej. cbn in Hsn. subst sn.
  unfold isRejection in Hrej. unfold result. cbn [dispatch].
  destruct (lookupMethod (type rej)) as [[]|]; try discriminate; reflexivity.
Qed.

(** ** The end-of-iteration check, in closed form *)

Lemma allEventsCommited_run : forall s,
  allEventsCommited s = (Return tt, discarded s).
Proof. intros [[sn|] lg q i t d g]; reflexivity. Qed.

Lemma checkAllCommitted_run : forall s,
  checkAllCommitted s = (Return tt, checked s).
Proof.
  intros s. unfold checkAllCommitted, checked, bind, get.
  destruct (uncommittedEvents s); cbn [List.length Nat.eqb].
  - apply allEventsCommited_run.
  - reflexivity.
Qed.

(** One iteration of the reconciliation loop whose dispatch returns. *)
Lemma reconcile_step : forall call e rest s s1,
  call e (set_uncommittedEvents (rejectCorrelation e (uncommittedEvents s)) s)
  = (Return tt, s1) ->
  initializeStateWith call (e :: rest) false s =
  initializeStateWith call rest false (checked s1).
Proof.
  intros call e rest s s1 H.
  cbn [initializeStateWith negb]. unfold bind at 1 2.
  unfold removeConfirmed, bind, get, modify. rewrite H.
  now rewrite checkAllCommitted_run.
Qed.

(** One iteration whose dispatch does not return ends the loop. *)
Lemma reconcile_abort : forall call e rest s r s1,
  call e (set_uncommittedEvents (rejectCorrelation e (uncommittedEvents s)) s)
  = (r, s1) ->
  r <> Return tt ->
  initializeStateWith call (e :: rest) false s = (r, s1).
Proof.
  intros call e rest s r s1 H Hr.
  cbn [initializeStateWith negb]. unfold bind at 1 2.
  unfold removeConfirmed, bind, get, modify. rewrite H.
  destruct r as [[]| |]; congruence.
Qed.

(** ** Enough fuel *)

(** An event whose [type] is the empty string names the method [apply]
    itself, which then calls itself without end: no amount of fuel
    makes the dispatch return, and the state is not touched. *)
Lemma dispatch_empty_type : forall fuel e s,
  lookupMethod (type e) = Some MApply ->
  dispatch fuel e s = (OutOfFuel, s).
Proof.
  induction fuel as [|n IH]; intros e s He; cbn [dispatch].
  - reflexivity.
  - rewrite He. unfold bind. now rewrite IH.
Qed.

Lemma checked_logOk : forall s, logOk s -> logOk (checked s).
Proof.
  intros s H. unfold checked, discarded.
  destruct (uncommittedEvents s); [|exact H].
  destruct (snapshot s); [reflexivity|exact H].
Qed.

(** On a log of domain events, two units of fuel are enough for any
    event of another type: the dispatch returns or throws. *)
Lemma dispatch_total : forall n e s,
  logOk s ->
  lookupMethod (type e) <> Some MApply ->
  result (dispatch (S (S n)) e) s <> OutOfFuel.
Proof.
  intros n e s Hlog Hty. unfold result.
  destruct (isDomainEvent e) eqn:Hdom.
  - rewrite dispatch_domain by exact Hdom. discriminate.
  - destruct (isRejection e) eqn:Hrej.
    + destruct (snapshot s) as [sn|] eqn:Hsn.
      * rewrite (dispatch_rejection n e s sn Hsn Hlog Hrej). discriminate.
      * pose proof (dispatch_rejection_no_snapshot (S n) e s Hsn Hrej) as H.
        unfold result in H. rewrite H. discriminate.
    + unfold isDomainEvent in Hdom. unfold isRejection in Hrej. cbn [dispatch].
      destruct (lookupMethod (type e)) as [[]|]; try discriminate; try congruence;
        unfold_methods; unfold_monad;
        destruct (data e); try discriminate; cbn; discriminate.
Qed.

Lemma initializeState_total : forall n stream s,
  logOk s ->
  Forall (fun e => lookupMethod (type e) <> Some MApply) stream ->
  result (initializeState (S (S n)) stream false) s <> OutOfFuel.
Proof.
  intros n stream. unfold result, initializeState.
  induction stream as [|e l IH]; intros s Hlog Hall; [discriminate|].
  inversion Hall as [|e' l' He Hl]; subst.
  pose (sq := set_uncommittedEvents (rejectCorrelation e (uncommittedEvents s)) s).
  assert (Hsq : logOk sq) by exact Hlog.
  pose proof (dispatch_total n e sq Hsq He) as Hne.
  pose proof (dispatch_logOk (S (S n)) e sq Hsq) as Hlog1.
  unfold result, exec in *.
  destruct (dispatch (S (S n)) e sq) as [r s1] eqn:Hd. cbn [fst snd] in *.
  destruct r as [[]| |].
  - rewrite (reconcile_step (dispatch (S (S n))) e l s s1 Hd).
    apply IH; [now apply checked_logOk|exact Hl].
  - rewrite (reconcile_abort (dispatch (S (S n))) e l s _ s1 Hd); discriminate.
  - congruence.
Qed.

(** In a state produced by the public operations, reconciling a batch
    none of whose events has the empty [type] returns or throws. *)
Theorem reconciliation_terminates : forall n stream s,
  reachable s ->
  Forall (fun e => lookupMethod (type e) <> Some MApply) stream ->
  result (initializeState (S (S n)) stream false) s <> OutOfFuel.
Proof.
  intros n stream s Hs. apply initializeState_total. now apply reachable_logOk.
Qed.

(** * C1: rollback *)

(** C1, as stated, fails.  Input: the fixture after [changeTitle("a")]
    (E1) and [addTag(1)] (E2), reconciled with the batch holding the
    rejection of E2 followed by the confirmation of E1.  The claim
    expects title, description and tags of the snapshot with the
    shortened log replayed, that is, the title ["a"] of E1; the code
    ends with the snapshot's own title ["1st idea"], because the queue
    drains at the confirmation and [allEventsCommited] reads the fields
    back from the snapshot. *)
Lemma rollback_then_confirmation_drops_E1 :
  let s' := exec (initializeState 2 [rejectTag1; confirmTitleA] false) pendingTitleAndTag in
  let claimed :=
    replayView (snapshotView snapshot123)
               (rejectCorrelation rejectTag1 (eventsSinceSnapshot pendingTitleAndTag)) in
  snapshot pendingTitleAndTag = Some snapshot123 /\
  map correlationId (uncommittedEvents pendingTitleAndTag)
    = [Some "my-ref-titlea"; Some "my-ref-1"] /\
  result (initializeState 2 [rejectTag1; confirmTitleA] false) pendingTitleAndTag
    = Return tt /\
  content claimed = (VStr "a", VUndefined, []) /\
  content (toString s') = (VStr "1st idea", VUndefined, []) /\
  content (toString s') <> content claimed.
Proof.
  cbv zeta. repeat split; try reflexivity.
  vm_compute. discriminate.
Qed.

(** C1, amended.  For an aggregate with a snapshot whose log holds
    domain events, reconciling the batch that consists of one rejection
    returns, removes from the queue the entries bearing the rejected
    correlation id, and:
    - if an entry with another correlation id stays pending, the
      snapshot is kept and title, description and tags are those of
      the snapshot with the shortened log (the entries bearing the
      rejected id removed) replayed in its original order;
    - if no entry stays pending, the snapshot and the log are cleared
      and title, description and tags are those of the snapshot. *)
Theorem rollback_replays_shortened_log : forall n s sn rej,
  snapshot s = Some sn ->
  logOk s ->
  isRejection rej = true ->
  let log' := rejectCorrelation rej (eventsSinceSnapshot s) in
  let queue' := rejectCorrelation rej (uncommittedEvents s) in
  let s' := exec (initializeState (S (S n)) [rej] false) s in
  result (initializeState (S (S n)) [rej] false) s = Return tt /\
  uncommittedEvents s' = queue' /\
  (queue' <> [] ->
   snapshot s' = Some sn /\
   content (toString s') = content (replayView (snapshotView sn) log')) /\
  (queue' = [] ->
   snapshot s' = None /\ eventsSinceSnapshot s' = [] /\
   content (toString s') = content (snapshotView sn)).
Proof.
  intros n s sn rej Hsn Hlog Hrej log' queue' s'.
  pose (sq := set_uncommittedEvents queue' s).
  assert (Hrun : dispatch (S (S n)) rej sq =
                 (Return tt,
                  withView (replayView (Snapshot.prop sn "ideaId", Snapshot.title sn,
                                        Snapshot.description sn, Snapshot.tags sn) log')
                           (set_eventsSinceSnapshot (log' ++ log') sq)))
    by (apply dispatch_rejection; assumption).
  assert (Hall : initializeState (S (S n)) [rej] false s =
                 (Return tt, checked
                    (withView (replayView (Snapshot.prop sn "ideaId", Snapshot.title sn,
                                           Snapshot.description sn, Snapshot.tags sn) log')
                              (set_eventsSinceSnapshot (log' ++ log') sq)))).
  { unfold initializeState. now rewrite (reconcile_step (dispatch (S (S n))) rej [] s _ Hrun). }
  unfold result. subst s'. unfold exec. rewrite Hall. cbn [fst snd].
  clear Hrun Hall.
  set (X := withView _ _).
  assert (HXs : snapshot X = Some sn)
    by (unfold X; rewrite withView_snapshot; exact Hsn).
  assert (HXq : uncommittedEvents X = queue')
    by (unfold X; rewrite withView_queue; reflexivity).
  assert (HXv : content (toString X) = content (replayView (snapshotView sn) log'))
    by (unfold X; rewrite toString_withView; apply content_replayView).
  split; [reflexivity|].
  unfold checked, discarded. rewrite HXq, HXs.
  destruct queue' as [|e0 q0].
  - cbn. repeat split; try congruence.
  - repeat split; auto; discriminate.
Qed.

(** The amended C1 at the scenario: after E2's rejection alone, E1 is
    still pending and its title is the current one. *)
Lemma rollback_replays_shortened_log_witness :
  result (initializeState 2 [rejectTag1] false) pendingTitleAndTag = Return tt /\
  content (toString (exec (initializeState 2 [rejectTag1] false) pendingTitleAndTag))
  = (VStr "a", VUndefined, []).
Proof.
  destruct (rollback_replays_shortened_log 0 pendingTitleAndTag snapshot123 rejectTag1)
    as [Hr [_ [Hkeep _]]]; try reflexivity.
  split; [exact Hr|].
  destruct Hkeep as [_ Hc]; [discriminate|].
  rewrite Hc. reflexivity.
Defined.

(** * C2: what the discard does to the current state *)

(** C2, as stated, fails.  Input: the fixture after [changeTitle("a")]
    and the confirmation of that change; the queue is then empty and
    the title is ["a"].  [allEventsCommited] leaves the title
    ["1st idea"] of the snapshot. *)
Lemma discard_changes_title :
  uncommittedEvents confirmedTitle = [] /\
  title confirmedTitle = VStr "a" /\
  result allEventsCommited confirmedTitle = Return tt /\
  title (exec allEventsCommited confirmedTitle) = VStr "1st idea" /\
  title (exec allEventsCommited confirmedTitle) <> title confirmedTitle.
Proof. repeat split; try reflexivity. vm_compute. discriminate. Qed.

(** C2, amended.  [allEventsCommited] never throws and leaves the queue
    alone; when a snapshot exists it overwrites title, description and
    tags with the snapshot's, clears the snapshot and empties the log;
    when none exists it changes nothing. *)
Theorem discard_restores_snapshot : forall s,
  result allEventsCommited s = Return tt /\
  uncommittedEvents (exec allEventsCommited s) = uncommittedEvents s /\
  match snapshot s with
  | Some sn =>
      snapshot (exec allEventsCommited s) = None /\
      eventsSinceSnapshot (exec allEventsCommited s) = [] /\
      title (exec allEventsCommited s) = Snapshot.title sn /\
      description (exec allEventsCommited s) = Snapshot.description sn /\
      tags (exec allEventsCommited s) = Snapshot.tags sn
  | None => exec allEventsCommited s = s
  end.
Proof.
  intros s. unfold result, exec. rewrite allEventsCommited_run. cbn [fst snd].
  unfold discarded. destruct s as [[sn|] lg q i t d g]; cbn; repeat split.
Qed.

(** * C3: the replay and the log *)

(** C3 fails on the code.  Input: the fixture after [changeTitle("a")]
    and [addTag(1)], reconciled with the rejection of the tag.  Just
    before the replay the log holds the title change once; after the
    replay it holds it twice, [recordThat] having pushed the replayed
    event.  The queue is not appended to. *)
Lemma replay_logs_again :
  let titleA := titleChangedEvent (VNum 123) (VStr "a") in
  let s' := exec (initializeState 2 [rejectTag1] false) pendingTitleAndTag in
  rejectCorrelation rejectTag1 (eventsSinceSnapshot pendingTitleAndTag) = [titleA] /\
  result (initializeState 2 [rejectTag1] false) pendingTitleAndTag = Return tt /\
  eventsSinceSnapshot s' = [titleA; titleA] /\
  uncommittedEvents s' = [titleA].
Proof. repeat split. Qed.

(** * C4: a rejection that matches nothing *)

(** C4 fails on the code.  Input: the fixture after [changeTitle("a")];
    the rejection of that change is reconciled (it returns, and the
    snapshot is cleared), then delivered once more.  The second
    delivery matches no entry and throws, [reconstructFromSnapshot]
    reading a property of the [null] snapshot. *)
Lemma duplicate_rejection_throws :
  let s1 := exec (initializeState 2 [rejectTitleA] false) pendingTitle in
  result (initializeState 2 [rejectTitleA] false) pendingTitle = Return tt /\
  snapshot s1 = None /\ uncommittedEvents s1 = [] /\ eventsSinceSnapshot s1 = [] /\
  result (initializeState 2 [rejectTitleA] false) s1 = Throw TypeError.
Proof. repeat split. Qed.

(** * C5: adding a tag twice *)

(** C5, as stated, fails.  Input: [addTag(1)] twice on the fixture;
    the tag [1] then occurs twice. *)
Lemma addTag_twice_duplicates :
  let s' := exec (addTag 1 (VNum 1) ;; addTag 1 (VNum 1)) idea123 in
  tags s' = [VNum 1; VNum 1] /\
  count_occ value_eq_dec (tags s') (VNum 1) <> 1.
Proof. split; [reflexivity|]. vm_compute. discriminate. Qed.

Lemma count_occ_snoc2 : forall (l : list value) x,
  count_occ value_eq_dec (l ++ [x; x]) x = count_occ value_eq_dec l x + 2.
Proof.
  intros l x. rewrite count_occ_app. cbn [count_occ].
  destruct (value_eq_dec x x); [reflexivity|congruence].
Qed.

(** C5, amended.  [addTag(x)] applied twice raises no error and pushes
    [x] twice onto the tags, so [x] occurs two more times than before;
    two [TagWasAddedToAnIdea] events carrying [x] do the same. *)
Theorem addTag_twice_appends_twice : forall n m s x,
  result (addTag (S n) x ;; addTag (S m) x) s = Return tt /\
  tags (exec (addTag (S n) x ;; addTag (S m) x) s) = tags s ++ [x; x] /\
  count_occ value_eq_dec (tags (exec (addTag (S n) x ;; addTag (S m) x) s)) x
  = count_occ value_eq_dec (tags s) x + 2 /\
  (forall i1 t1 d1 c1 i2 t2 d2 c2,
     let e1 := mkEvent "TagWasAddedToAnIdea" (Some (Data.mk i1 t1 d1 x)) c1 in
     let e2 := mkEvent "TagWasAddedToAnIdea" (Some (Data.mk i2 t2 d2 x)) c2 in
     result (dispatch (S n) e1 ;; dispatch (S m) e2) s = Return tt /\
     tags (exec (dispatch (S n) e1 ;; dispatch (S m) e2) s) = tags s ++ [x; x]).
Proof.
  intros n m s x.
  assert (Hrun : (addTag (S n) x ;; addTag (S m) x) s =
                 (Return tt, snd ((addTag (S n) x ;; addTag (S m) x) s)) /\
                 tags (snd ((addTag (S n) x ;; addTag (S m) x) s)) = tags s ++ [x; x]).
  { unfold bind. rewrite addTag_run, addTag_run. cbn [fst snd tags].
    now rewrite <- app_assoc. }
  destruct Hrun as [Hr Ht]. unfold result, exec.
  split; [now rewrite Hr|]. split; [exact Ht|]. split.
  - rewrite Ht. apply count_occ_snoc2.
  - intros i1 t1 d1 c1 i2 t2 d2 c2.
    unfold bind.
    rewrite (dispatch_domain n _ s) by reflexivity.
    rewrite (dispatch_domain m) by reflexivity.
    cbn [fst snd]. split; [reflexivity|].
    destruct s as [sn lg q i t d g]. cbn. now rewrite <- app_assoc.
Qed.

(** * C6: the identifier across a rollback *)

(** C6 fails on the code.  Input: the fixture, whose identifier is
    [123], after [changeTitle("a")] and [addTag(1)], reconciled with
    the rejection of the tag.  The snapshot stores the identifier under
    [id]; [reconstructFromSnapshot] reads [ideaId], which the snapshot
    does not have, and the identifier becomes [undefined]. *)
Lemma rollback_loses_identifier :
  let s' := exec (initializeState 2 [rejectTag1] false) pendingTitleAndTag in
  ideaId pendingTitleAndTag = VNum 123 /\
  option_map Snapshot.id (snapshot pendingTitleAndTag) = Some (VNum 123) /\
  result (initializeState 2 [rejectTag1] false) pendingTitleAndTag = Return tt /\
  option_map Snapshot.id (snapshot s') = Some (VNum 123) /\
  ideaId s' = VUndefined.
Proof. repeat split. Qed.

(** * C7: when the queue-empty check runs *)

Lemma checked_uncommitted : forall s,
  uncommittedEvents (checked s) = uncommittedEvents s.
Proof.
  intros s. unfold checked, discarded.
  destruct (uncommittedEvents s) eqn:Hq; [|exact Hq].
  destruct (snapshot s); [reflexivity|exact Hq].
Qed.

(** C7, as stated, fails.  Input: the fixture after [changeTitle("a")],
    reconciled with the batch holding the confirmation of that change
    followed by a remote title change to ["b"].  Between the two events
    the snapshot has been cleared and the log emptied (the confirmation
    was applied while the snapshot existed); the second event then runs
    on the restored state and is not logged. *)
Lemma discard_between_two_batch_events :
  let batch := [confirmTitleA; remoteTitle "b"] in
  let between := exec (initializeState 1 [confirmTitleA] false) pendingTitle in
  let final := exec (initializeState 1 batch false) pendingTitle in
  snapshot pendingTitle = Some snapshot123 /\
  initializeState 1 batch false pendingTitle
    = initializeState 1 [remoteTitle "b"] false between /\
  snapshot between = None /\
  eventsSinceSnapshot between = [] /\
  result (initializeState 1 batch false) pendingTitle = Return tt /\
  eventsSinceSnapshot final = [] /\
  title final = VStr "b".
Proof. repeat split. Qed.

(** C7, amended.  The queue-empty check runs after each event of the
    batch.  When the confirmation step and the handler of a batch event
    return and leave the queue empty, [allEventsCommited] runs before
    the next event of the batch: the snapshot is cleared (and the log
    emptied if a snapshot existed), and the rest of the batch is
    reconciled from that state.  When they leave the queue non-empty,
    the rest of the batch is reconciled from the state they produced. *)
Theorem discard_checked_after_each_event : forall fuel e rest s s1,
  (removeConfirmed e ;; dispatch fuel e) s = (Return tt, s1) ->
  (uncommittedEvents s1 = [] ->
   initializeState fuel (e :: rest) false s
     = initializeState fuel rest false (exec allEventsCommited s1) /\
   snapshot (exec allEventsCommited s1) = None /\
   (snapshot s1 <> None -> eventsSinceSnapshot (exec allEventsCommited s1) = [])) /\
  (uncommittedEvents s1 <> [] ->
   initializeState fuel (e :: rest) false s = initializeState fuel rest false s1).
Proof.
  intros fuel e rest s s1 H.
  unfold removeConfirmed, bind, get, modify in H.
  unfold initializeState. rewrite (reconcile_step (dispatch fuel) e rest s s1 H).
  unfold exec. rewrite allEventsCommited_run. cbn [snd].
  unfold checked. split.
  - intros Hq. rewrite Hq. split; [reflexivity|].
    unfold discarded. destruct (snapshot s1) eqn:Hs; cbn.
    + split; reflexivity.
    + split; [exact Hs|congruence].
  - intros Hq. destruct (uncommittedEvents s1); [congruence|reflexivity].
Qed.

Lemma discard_checked_after_each_event_witness :
  initializeState 1 [confirmTitleA; remoteTitle "b"] false pendingTitle
  = initializeState 1 [remoteTitle "b"] false (exec allEventsCommited confirmedTitle) /\
  snapshot (exec allEventsCommited confirmedTitle) = None.
Proof.
  destruct (discard_checked_after_each_event 1 confirmTitleA [remoteTitle "b"]
              pendingTitle confirmedTitle eq_refl) as [Hdrain _].
  destruct (Hdrain eq_refl) as [H1 [H2 _]].
  split; [exact H1|exact H2].
Defined.

(** * C8: the logging scenario *)

(** C8.  On the fixture titled ["1st idea"], [changeTitle("Awesome idea")]
    returns and leaves a snapshot; reconciling then a batch of one
    title-change event whose [correlationId] is not the pending one,
    and calling [addTag(1)], returns and leaves the log with exactly
    three entries (the local title change, the remote event, the local
    tag addition) and the snapshot still present. *)
Theorem logging_scenario : forall n1 n2 n3 p noise,
  looseEq (Some "my-ref-titleAwesome idea") noise = false ->
  let unrelated := mkEvent "IdeaTitleWasChanged" (Some p) noise in
  let s1 := exec (changeTitle (S n1) (VStr "Awesome idea")) idea123 in
  let rest := initializeState (S n2) [unrelated] false ;; addTag (S n3) (VNum 1) in
  result (changeTitle (S n1) (VStr "Awesome idea")) idea123 = Return tt /\
  snapshot s1 <> None /\
  result rest s1 = Return tt /\
  List.length (eventsSinceSnapshot (exec rest s1)) = 3 /\
  eventsSinceSnapshot (exec rest s1)
  = [titleChangedEvent (VNum 123) (VStr "Awesome idea"); unrelated;
     tagAddedEvent (VNum 123) (VNum 1)] /\
  snapshot (exec rest s1) <> None.
Proof.
  intros n1 n2 n3 p noise Hnoise unrelated s1 rest.
  assert (Hs1 : changeTitle (S n1) (VStr "Awesome idea") idea123 =
                (Return tt,
                 mkIdea (Some snapshot123)
                        [titleChangedEvent (VNum 123) (VStr "Awesome idea")]
                        [titleChangedEvent (VNum 123) (VStr "Awesome idea")]
                        (VNum 123) (VStr "Awesome idea") VUndefined []))
    by (rewrite changeTitle_run; reflexivity).
  unfold result. subst s1. unfold exec. rewrite Hs1. cbn [fst snd].
  split; [reflexivity|]. split; [discriminate|].
  assert (Hrest : rest (mkIdea (Some snapshot123)
                        [titleChangedEvent (VNum 123) (VStr "Awesome idea")]
                        [titleChangedEvent (VNum 123) (VStr "Awesome idea")]
                        (VNum 123) (VStr "Awesome idea") VUndefined []) =
                  (Return tt,
                   mkIdea (Some snapshot123)
                        [titleChangedEvent (VNum 123) (VStr "Awesome idea"); unrelated;
                         tagAddedEvent (VNum 123) (VNum 1)]
                        [titleChangedEvent (VNum 123) (VStr "Awesome idea");
                         tagAddedEvent (VNum 123) (VNum 1)]
                        (VNum 123) (Data.title p) VUndefined [VNum 1])).
  { subst rest. unfold bind at 1. unfold initializeState.
    erewrite reconcile_step.
    2:{ apply dispatch_domain. reflexivity. }
    unfold rejectCorrelation.
    cbn [uncommittedEvents filter correlationId titleChangedEvent toStr String.append unrelated].
    cbn [String.append] in Hnoise. rewrite Hnoise.
    cbn [negb initializeStateWith ret]. rewrite addTag_run. reflexivity. }
  rewrite Hrest. cbn [fst snd eventsSinceSnapshot snapshot].
  repeat split. discriminate.
Qed.

(** The scenario with the remote event of the test case, which has no
    [correlationId]. *)
Lemma logging_scenario_witness :
  List.length
    (eventsSinceSnapshot
       (exec (initializeState 1 [remoteTitle "Title from server"] false ;;
              addTag 1 (VNum 1))
             (exec (changeTitle 1 (VStr "Awesome idea")) idea123))) = 3.
Proof.
  destruct (logging_scenario 0 0 0
              (Data.mk VUndefined (VStr "Title from server") VUndefined VUndefined)
              None eq_refl) as [_ [_ [_ [H _]]]].
  exact H.
Defined.

(** ** Sequences of local commands, in closed form *)

Lemma eventOf_domain : forall i c, isDomainEvent (eventOf i c) = true.
Proof. intros i [v|v]; reflexivity. Qed.

Lemma eventsOf_domain : forall i cs, forallb isDomainEvent (map (eventOf i) cs) = true.
Proof.
  intros i cs. induction cs as [|c l IH]; [reflexivity|].
  cbn [map forallb]. now rewrite eventOf_domain, IH.
Qed.

Lemma runCommand_run : forall n c s,
  runCommand (S n) c s =
  (Return tt,
   withView (applyView (toString s) (eventOf (ideaId s) c))
            (mkIdea (Some (snapshotOrNew s))
                    (logOrNew s ++ [eventOf (ideaId s) c])
                    (uncommittedEvents s ++ [eventOf (ideaId s) c])
                    (ideaId s) (title s) (description s) (tags s))).
Proof.
  intros n [v|v] s; cbn [runCommand].
  - rewrite changeTitle_run. destruct s as [sn lg q i t d g]; reflexivity.
  - rewrite addTag_run. destruct s as [sn lg q i t d g]; reflexivity.
Qed.

(** Title and tag events leave the identifier of a view alone. *)
Lemma replayView_commands_id : forall j cs i t d g,
  fst (fst (fst (replayView (i, t, d, g) (map (eventOf j) cs)))) = i.
Proof.
  unfold replayView. intros j cs. induction cs as [|c l IH]; intros i t d g.
  - reflexivity.
  - destruct c as [v|v]; cbn [map fold_left]; apply IH.
Qed.

Lemma runCommands_run : forall n cs c s,
  let evs := map (eventOf (ideaId s)) (c :: cs) in
  runCommands (S n) (c :: cs) s =
  (Return tt,
   withView (replayView (toString s) evs)
            (mkIdea (Some (snapshotOrNew s)) (logOrNew s ++ evs)
                    (uncommittedEvents s ++ evs)
                    (ideaId s) (title s) (description s) (tags s))).
Proof.
  intros n cs. induction cs as [|c2 l IH]; intros c s evs; subst evs.
  - cbn [runCommands]. unfold bind. rewrite runCommand_run. reflexivity.
  - change (runCommands (S n) (c :: c2 :: l))
      with (runCommand (S n) c ;; runCommands (S n) (c2 :: l)).
    unfold bind at 1. rewrite runCommand_run. rewrite IH.
    f_equal.
    destruct s as [sn lg q i t d g]. destruct c as [v|v];
      cbn; rewrite <- !app_assoc; reflexivity.
Qed.

(** * C9: entries that share a correlation id *)

Lemma reconcile_single_queue : forall fuel e s,
  uncommittedEvents (exec (initializeState fuel [e] false) s)
  = rejectCorrelation e (uncommittedEvents s).
Proof.
  intros fuel e s. unfold initializeState.
  pose (sq := set_uncommittedEvents (rejectCorrelation e (uncommittedEvents s)) s).
  pose proof (dispatch_uncommitted fuel e sq) as Hq. unfold exec in *.
  destruct (dispatch fuel e sq) as [r s1] eqn:Hd. cbn [snd] in Hq.
  destruct r as [[]| |].
  - rewrite (reconcile_step (dispatch fuel) e [] s s1 Hd). cbn [initializeStateWith].
    unfold ret. cbn [snd]. now rewrite checked_uncommitted, Hq.
  - rewrite (reconcile_abort (dispatch fuel) e [] s _ s1 Hd) by discriminate.
    cbn [snd]. exact Hq.
  - rewrite (reconcile_abort (dispatch fuel) e [] s _ s1 Hd) by discriminate.
    cbn [snd]. exact Hq.
Qed.

Lemma rejectCorrelation_same : forall evt e1 e2 l,
  looseEq (correlationId e1) (correlationId evt) = true ->
  looseEq (correlationId e2) (correlationId evt) = true ->
  rejectCorrelation evt (l ++ [e1; e2]) = rejectCorrelation evt l.
Proof.
  intros evt e1 e2 l H1 H2. rewrite rejectCorrelation_app.
  unfold rejectCorrelation at 2. cbn [filter]. rewrite H1, H2. cbn [negb].
  apply app_nil_r.
Qed.

Lemma rejectCorrelation_none_left : forall evt l,
  Forall (fun ue => looseEq (correlationId ue) (correlationId evt) = false)
         (rejectCorrelation evt l).
Proof.
  intros evt l. apply Forall_forall. intros x Hx.
  apply filter_In in Hx as [_ Hx]. now apply negb_true_iff in Hx.
Qed.

Lemma commandId_fixed : forall i j c,
  correlationId (eventOf i c) = correlationId (eventOf j c).
Proof. intros i j [v|v]; reflexivity. Qed.

Lemma runCommands_queue : forall n cs s,
  result (runCommands (S n) cs) s = Return tt /\
  uncommittedEvents (exec (runCommands (S n) cs) s)
  = uncommittedEvents s ++ map (eventOf (ideaId s)) cs.
Proof.
  intros n [|c cs] s; unfold result, exec.
  - cbn. now rewrite app_nil_r.
  - rewrite runCommands_run. cbn [fst snd]. now rewrite withView_queue.
Qed.

Lemma rejectCorrelation_length : forall conf l,
  List.length (rejectCorrelation conf l) <= List.length l.
Proof. intros conf l. unfold rejectCorrelation. apply filter_length_le. Qed.

Lemma rejectCorrelation_commands_length : forall conf i c cs,
  looseEq (correlationId (eventOf i c)) (correlationId conf) = true ->
  List.length (rejectCorrelation conf (map (eventOf i) cs))
  + count_occ command_eq_dec cs c <= List.length cs.
Proof.
  intros conf i c cs Hc. induction cs as [|c' l IH]; [cbn; lia|].
  cbn [map count_occ List.length]. unfold rejectCorrelation in *. cbn [filter].
  destruct (command_eq_dec c' c) as [Heq|Hneq].
  - subst c'. rewrite Hc. cbn [negb]. lia.
  - destruct (negb (looseEq (correlationId (eventOf i c')) (correlationId conf)));
      cbn [List.length]; lia.
Qed.

(** C9.  The [correlationId] of a local event is built from the
    command and its argument alone (["my-ref-title" + title],
    ["my-ref-" + tagId]), whatever the state and the identifier.  So
    in any sequence of commands, run from any state, every call of the
    same command with the same argument enqueues an entry with the
    same id, wherever the calls stand in the sequence and however many
    they are; and reconciling one batch event bearing that id removes
    all of them from the queue at once: the queue is then the earlier
    queue without the entries bearing the id, it holds no entry with
    the id, and it is shorter by at least the number of such calls.
    With a confirming domain event the reconciliation returns. *)
Theorem shared_correlation_ids_collapse : forall n fuel cs c j s ty dat,
  let conf := mkEvent ty dat (correlationId (eventOf j c)) in
  let s1 := exec (runCommands (S n) cs) s in
  let s2 := exec (initializeState fuel [conf] false) s1 in
  correlationId (eventOf j c)
  = Some (match c with
          | ChangeTitle v => String.append "my-ref-title" (toStr v)
          | AddTag v => String.append "my-ref-" (toStr v)
          end) /\
  result (runCommands (S n) cs) s = Return tt /\
  uncommittedEvents s1 = uncommittedEvents s ++ map (eventOf (ideaId s)) cs /\
  uncommittedEvents s2 = rejectCorrelation conf (uncommittedEvents s1) /\
  Forall (fun ue => looseEq (correlationId ue) (correlationId conf) = false)
         (uncommittedEvents s2) /\
  List.length (uncommittedEvents s2) + count_occ command_eq_dec cs c
  <= List.length (uncommittedEvents s1) /\
  (isDomainEvent conf = true ->
   result (initializeState (S fuel) [conf] false) s1 = Return tt).
Proof.
  intros n fuel cs c j s ty dat conf s1 s2.
  destruct (runCommands_queue n cs s) as [Hr Hq]. fold s1 in Hq.
  assert (Hs2 : uncommittedEvents s2 = rejectCorrelation conf (uncommittedEvents s1))
    by (subst s2; apply reconcile_single_queue).
  split; [destruct c; reflexivity|].
  split; [exact Hr|]. split; [exact Hq|]. split; [exact Hs2|]. split; [|split].
  - rewrite Hs2. apply rejectCorrelation_none_left.
  - rewrite Hs2, Hq, rejectCorrelation_app, !length_app, length_map.
    pose proof (rejectCorrelation_length conf (uncommittedEvents s)) as H1.
    pose proof (rejectCorrelation_commands_length conf (ideaId s) c cs) as H2.
    assert (Hc : looseEq (correlationId (eventOf (ideaId s) c)) (correlationId conf) = true).
    { subst conf. cbn [correlationId]. rewrite (commandId_fixed (ideaId s) j c).
      apply looseEq_refl. }
    specialize (H2 Hc). lia.
  - intros Hdom. unfold result, initializeState.
    erewrite reconcile_step by (apply dispatch_domain; exact Hdom).
    reflexivity.
Qed.

(** The title changed twice to the same value, a tag added in between:
    the confirmation of the title change leaves the tag addition
    alone in the queue. *)
Lemma shared_correlation_ids_collapse_witness :
  let cs := [ChangeTitle (VStr "a"); AddTag (VNum 1); ChangeTitle (VStr "a")] in
  uncommittedEvents
    (exec (initializeState 1 [confirmTitleA] false) (exec (runCommands 1 cs) idea123))
  = [tagAddedEvent (VNum 123) (VNum 1)] /\
  result (initializeState 1 [confirmTitleA] false) (exec (runCommands 1 cs) idea123)
  = Return tt.
Proof.
  cbv zeta. split.
  - destruct (shared_correlation_ids_collapse 0 1
                [ChangeTitle (VStr "a"); AddTag (VNum 1); ChangeTitle (VStr "a")]
                (ChangeTitle (VStr "a")) (VNum 123) idea123 "IdeaTitleWasChanged"
                (Some (Data.mk (VNum 123) (VStr "a") VUndefined VUndefined)))
      as [_ [_ [_ [H _]]]].
    etransitivity; [exact H|reflexivity].
  - destruct (shared_correlation_ids_collapse 0 0
                [ChangeTitle (VStr "a"); AddTag (VNum 1); ChangeTitle (VStr "a")]
                (ChangeTitle (VStr "a")) (VNum 123) idea123 "IdeaTitleWasChanged"
                (Some (Data.mk (VNum 123) (VStr "a") VUndefined VUndefined)))
      as [_ [_ [_ [_ [_ [_ H]]]]]].
    exact (H eq_refl).
Defined.

(** * C10: batch events without a correlation id *)

(** C10.  In every state produced by [new Idea], [changeTitle],
    [addTag] and [initializeState], each queue entry carries a string
    [correlationId] that is not empty; and for a batch event with no
    [correlationId] the confirmation step returns and leaves the state,
    hence the queue, as it was. *)
Theorem remote_events_keep_queue : forall s evt,
  reachable s ->
  correlationId evt = None ->
  Forall hasStringId (uncommittedEvents s) /\
  result (removeConfirmed evt) s = Return tt /\
  uncommittedEvents (exec (removeConfirmed evt) s) = uncommittedEvents s /\
  exec (removeConfirmed evt) s = s.
Proof.
  intros s evt Hreach Hnone.
  pose proof (reachable_queueOk s Hreach) as Hq. unfold queueOk in Hq.
  split; [exact Hq|]. split; [reflexivity|].
  pose proof (rejectCorrelation_absent evt (uncommittedEvents s) Hnone Hq) as Hrej.
  destruct s as [sn lg q i t d g].
  cbn in *. rewrite Hrej. split; reflexivity.
Qed.

Lemma remote_events_keep_queue_witness :
  Forall hasStringId (uncommittedEvents pendingTitleAndTag) /\
  exec (removeConfirmed (remoteTitle "Title from server")) pendingTitleAndTag
  = pendingTitleAndTag.
Proof.
  destruct (remote_events_keep_queue pendingTitleAndTag (remoteTitle "Title from server")
              (reach_addTag _ 1 (VNum 1)
                 (reach_changeTitle _ 1 (VStr "a")
                    (reach_new (VNum 123) (VStr "1st idea") VUndefined)))
              eq_refl) as [H1 [_ [_ H2]]].
  split; [exact H1|exact H2].
Defined.

(** * Further properties of the aggregate *)

(** ** Batches compose *)

Lemma reconcile_app : forall fuel l1 l2 fromSnapshot s,
  initializeState fuel (l1 ++ l2) fromSnapshot s =
  (initializeState fuel l1 fromSnapshot ;; initializeState fuel l2 fromSnapshot) s.
Proof.
  intros fuel l1 l2 fromSnapshot. unfold initializeState.
  induction l1 as [|e l IH]; intros s.
  - reflexivity.
  - cbn [app initializeStateWith]. unfold bind in *.
    destruct ((if negb fromSnapshot then removeConfirmed e else ret tt) s)
      as [[[]| |] s1]; try reflexivity.
    destruct (dispatch fuel e s1) as [[[]| |] s2]; try reflexivity.
    destruct ((if negb fromSnapshot then checkAllCommitted else ret tt) s2)
      as [[[]| |] s3]; try reflexivity.
    apply IH.
Qed.

(** X1: reconciling two batches one after the other is reconciling
    their concatenation; when the first batch throws, the second is
    not read. *)
Theorem initializeState_app : forall fuel l1 l2 fromSnapshot s,
  initializeState fuel (l1 ++ l2) fromSnapshot s =
  (initializeState fuel l1 fromSnapshot ;; initializeState fuel l2 fromSnapshot) s.
Proof. exact reconcile_app. Qed.

(** ** Batches of domain events *)

Lemma rejectAll_nil : forall batch, rejectAll batch [] = [].
Proof. induction batch as [|e l IH]; [reflexivity|exact IH]. Qed.

Lemma rejectAll_app : forall l1 l2 q,
  rejectAll (l1 ++ l2) q = rejectAll l2 (rejectAll l1 q).
Proof. intros; unfold rejectAll; apply fold_left_app. Qed.

Lemma rejectAll_Forall : forall (P : event -> Prop) batch q,
  Forall P q -> Forall P (rejectAll batch q).
Proof.
  intros P batch. induction batch as [|e l IH]; intros q H; [exact H|].
  cbn. apply IH. now apply rejectCorrelation_Forall.
Qed.

Lemma reconcile_domain_step : forall n e rest s,
  isDomainEvent e = true ->
  initializeState (S n) (e :: rest) false s =
  initializeState (S n) rest false (checked (handled s e)).
Proof.
  intros n e rest s He. unfold initializeState.
  apply reconcile_step. now rewrite dispatch_domain.
Qed.

Lemma handled_queue : forall s e,
  uncommittedEvents (handled s e) = rejectCorrelation e (uncommittedEvents s).
Proof. intros; unfold handled; now rewrite withView_queue. Qed.

Lemma handled_snapshot : forall s e, snapshot (handled s e) = snapshot s.
Proof. intros; unfold handled; now rewrite withView_snapshot. Qed.

Lemma handled_log : forall s e, eventsSinceSnapshot (handled s e) = logAfter s e.
Proof. intros; unfold handled; now rewrite withView_log. Qed.

Lemma handled_view : forall s e, toString (handled s e) = applyView (toString s) e.
Proof. intros; unfold handled; now rewrite toString_withView. Qed.

(** A state is determined by its seven fields. *)
Lemma Idea_ext : forall s1 s2,
  snapshot s1 = snapshot s2 ->
  eventsSinceSnapshot s1 = eventsSinceSnapshot s2 ->
  uncommittedEvents s1 = uncommittedEvents s2 ->
  toString s1 = toString s2 ->
  s1 = s2.
Proof.
  intros [a1 b1 c1 i1 t1 d1 g1] [a2 b2 c2 i2 t2 d2 g2]. unfold toString. cbn.
  intros; congruence.
Qed.

(** The check changes nothing unless the queue is empty and a snapshot
    exists. *)
Lemma checked_id : forall s,
  snapshot s = None \/ uncommittedEvents s <> [] -> checked s = s.
Proof.
  intros s [H|H]; unfold checked, discarded.
  - rewrite H. now destruct (uncommittedEvents s).
  - destruct (uncommittedEvents s); [congruence|reflexivity].
Qed.

Lemma reconcile_domain_run : forall n batch s,
  forallb isDomainEvent batch = true ->
  snapshot s = None \/ rejectAll batch (uncommittedEvents s) <> [] ->
  initializeState (S n) batch false s =
  (Return tt,
   withView (replayView (toString s) batch)
            (set_eventsSinceSnapshot (logAfterAll s batch)
               (set_uncommittedEvents (rejectAll batch (uncommittedEvents s)) s))).
Proof.
  intros n batch. induction batch as [|e l IH]; intros s Hdom Hq.
  - unfold initializeState. cbn [initializeStateWith]. unfold ret. f_equal.
    apply Idea_ext;
      rewrite ?withView_snapshot, ?withView_log, ?withView_queue, ?toString_withView;
      try reflexivity.
    unfold logAfterAll. cbn. destruct (snapshot s); [now rewrite app_nil_r|reflexivity].
  - cbn [forallb] in Hdom. apply andb_true_iff in Hdom as [He Hl].
    rewrite (reconcile_domain_step n e l s He).
    assert (Hc : checked (handled s e) = handled s e).
    { apply checked_id. rewrite handled_snapshot, handled_queue.
      destruct Hq as [Hq|Hq]; [now left|right].
      intros Hnil. apply Hq. cbn. rewrite Hnil. apply rejectAll_nil. }
    rewrite Hc, IH; [|exact Hl|].
    + f_equal. apply Idea_ext;
        rewrite ?withView_snapshot, ?withView_log, ?withView_queue, ?toString_withView;
        cbn [snapshot eventsSinceSnapshot uncommittedEvents
             set_eventsSinceSnapshot set_uncommittedEvents];
        rewrite ?handled_snapshot, ?handled_queue, ?handled_view; try reflexivity.
      unfold logAfterAll. rewrite handled_snapshot, handled_log. unfold logAfter.
      destruct (snapshot s); [now rewrite <- app_assoc|reflexivity].
    + rewrite handled_snapshot, handled_queue. exact Hq.
Qed.

(** X2: a batch of domain events that leaves some entry pending.
    Reconciling it returns; the queue loses the entries bearing a
    correlation id of the batch; the snapshot is kept; when a snapshot
    exists the batch is appended to the log in its order; and the
    fields are the current ones with the batch replayed over them. *)
Theorem reconcile_keeping_pending : forall n batch s,
  forallb isDomainEvent batch = true ->
  rejectAll batch (uncommittedEvents s) <> [] ->
  let s' := exec (initializeState (S n) batch false) s in
  result (initializeState (S n) batch false) s = Return tt /\
  uncommittedEvents s' = rejectAll batch (uncommittedEvents s) /\
  snapshot s' = snapshot s /\
  eventsSinceSnapshot s' = logAfterAll s batch /\
  toString s' = replayView (toString s) batch.
Proof.
  intros n batch s Hdom Hq s'. subst s'. unfold result, exec.
  rewrite reconcile_domain_run by auto. cbn [fst snd].
  now rewrite withView_queue, withView_snapshot, withView_log, toString_withView.
Qed.

Lemma reconcile_keeping_pending_witness :
  toString (exec (initializeState 1 [remoteTitle "b"; confirmTitleA] false) pendingTitleAndTag)
  = (VNum 123, VStr "a", VUndefined, [VNum 1]).
Proof.
  destruct (reconcile_keeping_pending 0 [remoteTitle "b"; confirmTitleA] pendingTitleAndTag)
    as [_ [_ [_ [_ H]]]]; [reflexivity|discriminate|].
  rewrite H. reflexivity.
Defined.

(** X3: an aggregate without a snapshot.  Reconciling a batch of domain
    events returns, leaves snapshot and log as they were and replays
    the batch over the fields: nothing is recorded. *)
Theorem reconcile_without_snapshot : forall n batch s,
  forallb isDomainEvent batch = true ->
  snapshot s = None ->
  let s' := exec (initializeState (S n) batch false) s in
  result (initializeState (S n) batch false) s = Return tt /\
  snapshot s' = None /\
  eventsSinceSnapshot s' = eventsSinceSnapshot s /\
  uncommittedEvents s' = rejectAll batch (uncommittedEvents s) /\
  toString s' = replayView (toString s) batch.
Proof.
  intros n batch s Hdom Hsn s'. subst s'. unfold result, exec.
  rewrite reconcile_domain_run by auto. cbn [fst snd].
  rewrite withView_queue, withView_snapshot, withView_log, toString_withView.
  unfold logAfterAll. cbn. rewrite Hsn. repeat split.
Qed.

Lemma reconcile_without_snapshot_witness :
  toString (exec (initializeState 1 [remoteTitle "Another title"; remoteTitle "Last title"]
                    false) idea123)
  = (VNum 123, VStr "Last title", VUndefined, []).
Proof.
  destruct (reconcile_without_snapshot 0
              [remoteTitle "Another title"; remoteTitle "Last title"] idea123)
    as [_ [_ [_ [_ H]]]]; [reflexivity|reflexivity|].
  rewrite H. reflexivity.
Defined.

(** ** Batches that empty the queue *)

Lemma handled_logTracked : forall s e, logTracked s -> logTracked (handled s e).
Proof.
  unfold logTracked. intros s e H. rewrite handled_snapshot, handled_log.
  intros Hsn. unfold logAfter. rewrite Hsn. now apply H.
Qed.

Lemma checked_logTracked : forall s, logTracked s -> logTracked (checked s).
Proof.
  unfold logTracked, checked, discarded. intros s H.
  destruct (uncommittedEvents s); [|exact H].
  destruct (snapshot s) eqn:Hsn; [reflexivity|].
  intros _. apply H; first [exact Hsn | reflexivity].
Qed.

Lemma checked_drained : forall s,
  logTracked s -> uncommittedEvents s = [] ->
  snapshot (checked s) = None /\ eventsSinceSnapshot (checked s) = [] /\
  uncommittedEvents (checked s) = [].
Proof.
  unfold logTracked, checked, discarded. intros s H Hq. rewrite Hq.
  destruct (snapshot s) eqn:Hsn; cbn; [auto|].
  repeat split; [exact Hsn| |exact Hq].
  apply H; first [exact Hsn | reflexivity].
Qed.

Lemma confirm_all_run : forall n batch s,
  batch <> [] ->
  forallb isDomainEvent batch = true ->
  logTracked s ->
  rejectAll batch (uncommittedEvents s) = [] ->
  let s' := exec (initializeState (S n) batch false) s in
  result (initializeState (S n) batch false) s = Return tt /\
  uncommittedEvents s' = [] /\
  snapshot s' = None /\
  eventsSinceSnapshot s' = [].
Proof.
  intros n batch. unfold result, exec.
  induction batch as [|e l IH]; intros s Hne Hdom Htr Hq; [congruence|].
  cbn [forallb] in Hdom. apply andb_true_iff in Hdom as [He Hl].
  rewrite (reconcile_domain_step n e l s He).
  pose proof (checked_logTracked _ (handled_logTracked s e Htr)) as Htr1.
  destruct l as [|e2 l2].
  - cbn in Hq. unfold initializeState. cbn [initializeStateWith ret fst snd].
    destruct (checked_drained (handled s e)) as [H1 [H2 H3]];
      [now apply handled_logTracked|now rewrite handled_queue|].
    auto.
  - apply IH; try assumption; [discriminate|].
    rewrite checked_uncommitted, handled_queue. exact Hq.
Qed.

(** X4: a batch of domain events that confirms every pending entry.
    Reconciling it returns and leaves the aggregate with an empty
    queue, no snapshot and an empty log. *)
Theorem confirming_everything_clears_tracking : forall n batch s,
  batch <> [] ->
  forallb isDomainEvent batch = true ->
  logTracked s ->
  rejectAll batch (uncommittedEvents s) = [] ->
  let s' := exec (initializeState (S n) batch false) s in
  result (initializeState (S n) batch false) s = Return tt /\
  uncommittedEvents s' = [] /\
  snapshot s' = None /\
  eventsSinceSnapshot s' = [].
Proof. exact confirm_all_run. Qed.

Lemma confirming_everything_clears_tracking_witness :
  snapshot (exec (initializeState 1 (uncommittedEvents pendingTitleAndTag) false)
                 pendingTitleAndTag) = None.
Proof.
  assert (Hne : uncommittedEvents pendingTitleAndTag <> []) by discriminate.
  assert (Htr : logTracked pendingTitleAndTag) by (intros Hsn; discriminate Hsn).
  exact (proj1 (proj2 (proj2
           (confirming_everything_clears_tracking 0
              (uncommittedEvents pendingTitleAndTag) pendingTitleAndTag
              Hne eq_refl Htr eq_refl)))).
Defined.

(** X5: the fields after the queue has drained.  When a snapshot exists
    and the last event of a batch of domain events is the one that
    empties the queue, title, description and tags end as the snapshot
    held them: what the events since the snapshot did to them, the
    confirmed ones included, is undone. *)
Theorem draining_restores_snapshot_content : forall n l e s sn,
  snapshot s = Some sn ->
  forallb isDomainEvent (l ++ [e]) = true ->
  rejectAll l (uncommittedEvents s) <> [] ->
  rejectCorrelation e (rejectAll l (uncommittedEvents s)) = [] ->
  let s' := exec (initializeState (S n) (l ++ [e]) false) s in
  result (initializeState (S n) (l ++ [e]) false) s = Return tt /\
  snapshot s' = None /\ eventsSinceSnapshot s' = [] /\ uncommittedEvents s' = [] /\
  content (toString s') = content (snapshotView sn).
Proof.
  intros n l e s sn Hsn Hdom Hq Hq' s'. subst s'. unfold result, exec.
  rewrite forallb_app in Hdom. apply andb_true_iff in Hdom as [Hl He].
  cbn [forallb] in He. rewrite andb_true_r in He.
  rewrite reconcile_app. unfold bind.
  rewrite (reconcile_domain_run n l s Hl (or_intror Hq)).
  set (s1 := withView _ _).
  assert (Hs1 : snapshot s1 = Some sn)
    by (unfold s1; rewrite withView_snapshot; exact Hsn).
  assert (Hq1 : uncommittedEvents s1 = rejectAll l (uncommittedEvents s))
    by (unfold s1; now rewrite withView_queue).
  rewrite (reconcile_domain_step n e [] s1 He).
  unfold initializeState. cbn [initializeStateWith ret fst snd].
  unfold checked. rewrite handled_queue, Hq1, Hq'.
  unfold discarded. rewrite handled_snapshot, Hs1. cbn. repeat split.
  now rewrite handled_queue, Hq1.
Qed.

Lemma draining_restores_snapshot_content_witness :
  content (toString (exec (initializeState 1 (uncommittedEvents pendingTitleAndTag) false)
                          pendingTitleAndTag))
  = (VStr "1st idea", VUndefined, []).
Proof.
  assert (Hq : rejectAll [titleChangedEvent (VNum 123) (VStr "a")]
                         (uncommittedEvents pendingTitleAndTag) <> []) by discriminate.
  exact (proj2 (proj2 (proj2 (proj2
           (draining_restores_snapshot_content 0
              [titleChangedEvent (VNum 123) (VStr "a")]
              (tagAddedEvent (VNum 123) (VNum 1)) pendingTitleAndTag snapshot123
              eq_refl eq_refl Hq eq_refl))))).
Defined.

(** ** Sequences of local commands *)

(** X7: local commands in a row.  Any non-empty sequence of
    [changeTitle] and [addTag] calls returns; each call appends its
    event to the queue and to the log; the snapshot is the one that
    existed or, if there was none, a copy of the fields before the
    first call; the fields are the earlier ones with the events
    replayed; the identifier is unchanged. *)
Theorem local_commands_run : forall n c cs s,
  let evs := map (eventOf (ideaId s)) (c :: cs) in
  let s' := exec (runCommands (S n) (c :: cs)) s in
  result (runCommands (S n) (c :: cs)) s = Return tt /\
  uncommittedEvents s' = uncommittedEvents s ++ evs /\
  eventsSinceSnapshot s' = logOrNew s ++ evs /\
  snapshot s' = Some (snapshotOrNew s) /\
  toString s' = replayView (toString s) evs /\
  ideaId s' = ideaId s.
Proof.
  intros n c cs s evs s'. subst s'. unfold result, exec.
  rewrite runCommands_run. cbn [fst snd]. fold evs.
  rewrite withView_queue, withView_log, withView_snapshot, toString_withView.
  repeat split.
  destruct s as [sn lg q i t d g].
  pose proof (replayView_commands_id i (c :: cs) i t d g) as H.
  unfold toString. cbn [ideaId title description tags] in *. fold evs in H.
  destruct (replayView (i, t, d, g) evs) as [[[i1 t1] d1] g1]. exact H.
Qed.

(** ** Rejections, in full *)

Lemma reconcile_rejection_run : forall n rej rest s sn,
  snapshot s = Some sn ->
  logOk s ->
  isRejection rej = true ->
  let log' := rejectCorrelation rej (eventsSinceSnapshot s) in
  let queue' := rejectCorrelation rej (uncommittedEvents s) in
  initializeState (S (S n)) (rej :: rest) false s =
  initializeState (S (S n)) rest false
    (checked
       (withView (replayView (Snapshot.prop sn "ideaId", Snapshot.title sn,
                              Snapshot.description sn, Snapshot.tags sn) log')
                 (set_eventsSinceSnapshot (log' ++ log')
                    (set_uncommittedEvents queue' s)))).
Proof.
  intros n rej rest s sn Hsn Hlog Hrej log' queue'.
  unfold initializeState. apply reconcile_step.
  now rewrite (dispatch_rejection n rej _ sn).
Qed.

Lemma rejection_pending_run : forall n rej s sn,
  snapshot s = Some sn ->
  logOk s ->
  isRejection rej = true ->
  rejectCorrelation rej (uncommittedEvents s) <> [] ->
  let log' := rejectCorrelation rej (eventsSinceSnapshot s) in
  initializeState (S (S n)) [rej] false s =
  (Return tt,
   withView (replayView (VUndefined, Snapshot.title sn,
                         Snapshot.description sn, Snapshot.tags sn) log')
            (set_eventsSinceSnapshot (log' ++ log')
               (set_uncommittedEvents (rejectCorrelation rej (uncommittedEvents s)) s))).
Proof.
  intros n rej s sn Hsn Hlog Hrej Hq log'.
  rewrite (reconcile_rejection_run n rej [] s sn Hsn Hlog Hrej).
  unfold initializeState. cbn [initializeStateWith]. unfold ret.
  rewrite checked_id by (right; now rewrite withView_queue).
  reflexivity.
Qed.

(** X9: a rejection while another entry stays pending, all fields.
    The reconciliation returns; the queue and the log lose the entries
    bearing the rejected id; the snapshot is kept; the fields are read
    back from the snapshot, the identifier from the property [ideaId]
    that the snapshot lacks, and the shortened log is replayed over
    them; the log ends holding the shortened log twice. *)
Theorem rejection_keeping_pending : forall n rej s sn,
  snapshot s = Some sn ->
  logOk s ->
  isRejection rej = true ->
  rejectCorrelation rej (uncommittedEvents s) <> [] ->
  let log' := rejectCorrelation rej (eventsSinceSnapshot s) in
  let s' := exec (initializeState (S (S n)) [rej] false) s in
  result (initializeState (S (S n)) [rej] false) s = Return tt /\
  uncommittedEvents s' = rejectCorrelation rej (uncommittedEvents s) /\
  snapshot s' = Some sn /\
  eventsSinceSnapshot s' = log' ++ log' /\
  toString s' = replayView (VUndefined, Snapshot.title sn,
                            Snapshot.description sn, Snapshot.tags sn) log'.
Proof.
  intros n rej s sn Hsn Hlog Hrej Hq log' s'. subst s'. unfold result, exec.
  rewrite (rejection_pending_run n rej s sn Hsn Hlog Hrej Hq). cbn [fst snd].
  rewrite withView_queue, withView_snapshot, withView_log, toString_withView.
  repeat split. exact Hsn.
Qed.

Lemma rejection_keeping_pending_witness :
  toString (exec (initializeState 2 [rejectTag1] false) pendingTitleAndTag)
  = (VUndefined, VStr "a", VUndefined, []).
Proof.
  assert (Hq : rejectCorrelation rejectTag1 (uncommittedEvents pendingTitleAndTag) <> [])
    by discriminate.
  exact (proj2 (proj2 (proj2 (proj2
           (rejection_keeping_pending 0 rejectTag1 pendingTitleAndTag snapshot123
              eq_refl eq_refl eq_refl Hq))))).
Defined.

Lemma rejectCorrelation_map : forall rej i cs,
  rejectCorrelation rej (map (eventOf i) cs) =
  map (eventOf i)
      (filter (fun c => negb (looseEq (correlationId (eventOf i c)) (correlationId rej))) cs).
Proof.
  intros rej i cs. unfold rejectCorrelation.
  induction cs as [|c l IH]; [reflexivity|]. cbn [map filter].
  destruct (negb (looseEq (correlationId (eventOf i c)) (correlationId rej)));
    cbn [map]; now rewrite IH.
Qed.

(** X8: one rejection notice undoes the commands it names.  On an
    aggregate with no snapshot and an empty queue, after a sequence of
    local commands and the reconciliation of a batch that consists of
    one rejection notice (it rejects every command whose event bears
    its id), if a command stays pending then title, description and tags
    are what the commands that stay pending alone would have produced,
    the queue holds their events, and the snapshot is the copy of the
    fields taken before the first command. *)
Theorem rejecting_commands_undoes_them : forall n m k cs rej s,
  snapshot s = None ->
  uncommittedEvents s = [] ->
  isRejection rej = true ->
  let kept :=
    filter (fun c => negb (looseEq (correlationId (eventOf (ideaId s) c))
                                   (correlationId rej))) cs in
  kept <> [] ->
  let run := runCommands (S n) cs ;; initializeState (S (S m)) [rej] false in
  result run s = Return tt /\
  content (toString (exec run s)) = content (toString (exec (runCommands (S k) kept) s)) /\
  uncommittedEvents (exec run s) = map (eventOf (ideaId s)) kept /\
  snapshot (exec run s)
  = Some (Snapshot.mk (ideaId s) (title s) (description s) (tags s)).
Proof.
  intros n m k cs rej s Hsn Hq Hrej kept Hkept run.
  destruct cs as [|c cs]; [now elim Hkept|].
  subst run. unfold result, exec, bind.
  rewrite runCommands_run. cbv zeta.
  set (evs := map (eventOf (ideaId s)) (c :: cs)).
  set (s2 := withView _ _).
  assert (Hs2 : snapshot s2 = Some (Snapshot.mk (ideaId s) (title s) (description s) (tags s))).
  { unfold s2. rewrite withView_snapshot. cbn. unfold snapshotOrNew. now rewrite Hsn. }
  assert (Hl2 : eventsSinceSnapshot s2 = evs).
  { unfold s2. rewrite withView_log. cbn. unfold logOrNew. now rewrite Hsn. }
  assert (Hq2 : uncommittedEvents s2 = evs).
  { unfold s2. rewrite withView_queue. cbn. now rewrite Hq. }
  assert (Hok : logOk s2).
  { unfold logOk. rewrite Hl2. apply eventsOf_domain. }
  assert (Hrej2 : rejectCorrelation rej evs = map (eventOf (ideaId s)) kept).
  { unfold evs. now rewrite rejectCorrelation_map. }
  assert (Hne : rejectCorrelation rej (uncommittedEvents s2) <> []).
  { rewrite Hq2, Hrej2. destruct kept; [now elim Hkept|discriminate]. }
  rewrite (rejection_pending_run m rej s2 _ Hs2 Hok Hrej Hne). cbn [fst snd].
  rewrite withView_queue, withView_snapshot, toString_withView.
  cbn [uncommittedEvents snapshot set_eventsSinceSnapshot set_uncommittedEvents].
  rewrite Hq2, Hl2, Hrej2.
  split; [reflexivity|]. split; [|split; [reflexivity|exact Hs2]].
  destruct kept as [|c' kept']; [now elim Hkept|].
  rewrite runCommands_run. cbn [snd]. rewrite toString_withView.
  destruct s as [sn lg q i t d g]. unfold toString.
  cbn [ideaId title description tags Snapshot.title Snapshot.description Snapshot.tags].
  apply content_replayView.
Qed.

Lemma rejecting_commands_undoes_them_witness :
  content (toString (exec (runCommands 1 [ChangeTitle (VStr "a"); AddTag (VNum 1)] ;;
                           initializeState 2 [rejectTag1] false) idea123))
  = content (toString (exec (runCommands 1 [ChangeTitle (VStr "a")]) idea123)).
Proof.
  assert (Hk : filter (fun c => negb (looseEq (correlationId (eventOf (ideaId idea123) c))
                                             (correlationId rejectTag1)))
                      [ChangeTitle (VStr "a"); AddTag (VNum 1)] <> []) by discriminate.
  exact (proj1 (proj2
           (rejecting_commands_undoes_them 0 0 0 [ChangeTitle (VStr "a"); AddTag (VNum 1)]
              rejectTag1 idea123 eq_refl eq_refl eq_refl Hk))).
Defined.

(** ** Events that throw *)

(** X11: a rejection that finds no snapshot.  The reconciliation throws a
    [TypeError]; the confirmation step and the removal from the log
    have already run, the fields and the snapshot are untouched, and
    the rest of the batch is not read. *)
Theorem rejection_without_snapshot_throws : forall n rej rest s,
  snapshot s = None ->
  isRejection rej = true ->
  initializeState (S n) (rej :: rest) false s =
  (Throw TypeError,
   set_eventsSinceSnapshot (rejectCorrelation rej (eventsSinceSnapshot s))
     (set_uncommittedEvents (rejectCorrelation rej (uncommittedEvents s)) s)).
Proof.
  intros n rej rest [sn lg q i t d g] Hsn Hrej. cbn in Hsn. subst sn.
  unfold initializeState. apply reconcile_abort; [|discriminate].
  unfold isRejection in Hrej. cbn [dispatch].
  destruct (lookupMethod (type rej)) as [[]|]; try discriminate; reflexivity.
Qed.

Lemma rejection_without_snapshot_throws_witness :
  result (initializeState 1 [rejectTitleA; remoteTitle "b"] false) idea123 = Throw TypeError /\
  exec (initializeState 1 [rejectTitleA; remoteTitle "b"] false) idea123 = idea123.
Proof.
  unfold result, exec.
  rewrite (rejection_without_snapshot_throws 0 rejectTitleA [remoteTitle "b"] idea123
             eq_refl eq_refl).
  split; reflexivity.
Defined.

(** X12: an event no handler accepts (no method of that name, or a
    domain event without [data]).  The reconciliation throws a
    [TypeError] after the confirmation step has run: the queue has
    already lost the entries bearing the event's correlation id, every
    other field is as before, and the rest of the batch is not read. *)
Theorem unhandled_event_throws_after_confirmation : forall n e rest s,
  isUnhandled e = true ->
  initializeState (S n) (e :: rest) false s =
  (Throw TypeError,
   set_uncommittedEvents (rejectCorrelation e (uncommittedEvents s)) s).
Proof.
  intros n e rest s He. unfold initializeState.
  apply reconcile_abort; [|discriminate].
  unfold isUnhandled in He. cbn [dispatch].
  destruct (lookupMethod (type e)) as [[]|]; try discriminate;
    try reflexivity;
    destruct (data e) eqn:Hd; try discriminate;
    unfold_methods; unfold_monad; rewrite Hd; reflexivity.
Qed.

Lemma unhandled_event_throws_after_confirmation_witness :
  let bogus := mkEvent "IdeaWasDeleted" None (Some "my-ref-titlea") in
  result (initializeState 1 [bogus] false) pendingTitle = Throw TypeError /\
  uncommittedEvents (exec (initializeState 1 [bogus] false) pendingTitle) = [] /\
  snapshot (exec (initializeState 1 [bogus] false) pendingTitle) = Some snapshot123.
Proof.
  cbv zeta. unfold result, exec.
  rewrite (unhandled_event_throws_after_confirmation 0
             (mkEvent "IdeaWasDeleted" None (Some "my-ref-titlea")) [] pendingTitle eq_refl).
  repeat split.
Defined.

(** X13: an event whose [type] is the empty string.  ['apply' + ""]
    names the method [apply] itself, so the dispatch calls [apply]
    again without end: whatever depth the calls are allowed, [apply]
    and [initializeState] do not return (an engine ends the recursion
    by raising a [RangeError] once its stack is exhausted).  The event
    is never pushed onto the queue: [apply] leaves the state as it
    was, and [initializeState] leaves it as the confirmation step made
    it. *)
Theorem empty_type_never_returns : forall fuel e s,
  type e = "" ->
  result (apply_ fuel e) s <> Return tt /\
  exec (apply_ fuel e) s = s /\
  result (initializeState fuel [e] false) s <> Return tt /\
  exec (initializeState fuel [e] false) s
  = set_uncommittedEvents (rejectCorrelation e (uncommittedEvents s)) s.
Proof.
  intros fuel e s He.
  assert (Hm : lookupMethod (type e) = Some MApply) by (now rewrite He).
  assert (Ha : apply_ fuel e s = (OutOfFuel, s))
    by (unfold apply_, bind; now rewrite dispatch_empty_type).
  assert (Hi : initializeState fuel [e] false s
               = (OutOfFuel,
                  set_uncommittedEvents (rejectCorrelation e (uncommittedEvents s)) s)).
  { unfold initializeState. apply reconcile_abort; [|discriminate].
    now rewrite dispatch_empty_type. }
  unfold result, exec. rewrite Ha, Hi. cbn [fst snd].
  repeat split; discriminate.
Qed.

Lemma empty_type_never_returns_witness :
  exec (apply_ 1000 (mkEvent "" None None)) pendingTitle = pendingTitle.
Proof.
  exact (proj1 (proj2 (empty_type_never_returns 1000 (mkEvent "" None None)
                         pendingTitle eq_refl))).
Defined.

(** ** More invariants of the reachable states *)

Lemma dispatch_snapshot : forall fuel e s,
  snapshot (exec (dispatch fuel e) s) = snapshot s.
Proof.
  induction fuel as [|n IH]; intros e s; [reflexivity|].
  destruct (isDomainEvent e) eqn:Hdom.
  - unfold exec. rewrite dispatch_domain by exact Hdom. cbn [snd].
    now rewrite withView_snapshot.
  - unfold isDomainEvent in Hdom. unfold exec. cbn [dispatch].
    destruct (lookupMethod (type e)) as [[]|] eqn:Hm.
    + pose proof (IH e s) as H1. unfold exec, bind in *.
      destruct (dispatch n e s) as [[[]| |] s1]; cbn [snd] in *; exact H1.
    + destruct (data e) eqn:Hd; [discriminate|].
      unfold_methods; unfold_monad. now rewrite Hd.
    + destruct (data e) eqn:Hd; [discriminate|].
      unfold_methods; unfold_monad. now rewrite Hd.
    + destruct (data e) eqn:Hd; [discriminate|].
      unfold_methods; unfold_monad. now rewrite Hd.
    + destruct s as [sn lg q i t d g].
      unfold processFailedEventWith; unfold_methods; unfold_monad.
      destruct sn as [sn|]; cbn; [|reflexivity].
      apply (replay_keeps (dispatch n) (fun s' => snapshot s' = Some sn)); [|reflexivity].
      intros e' s' Hs'. unfold exec. now rewrite IH.
    + destruct s as [sn lg q i t d g].
      unfold processFailedEventWith; unfold_methods; unfold_monad.
      destruct sn as [sn|]; cbn; [|reflexivity].
      apply (replay_keeps (dispatch n) (fun s' => snapshot s' = Some sn)); [|reflexivity].
      intros e' s' Hs'. unfold exec. now rewrite IH.
    + reflexivity.
Qed.

Lemma dispatch_logTracked : forall fuel e s,
  logTracked s -> logTracked (exec (dispatch fuel e) s).
Proof.
  unfold logTracked. intros fuel e s H. rewrite dispatch_snapshot. intros Hsn.
  specialize (H Hsn).
  destruct fuel as [|n]; [exact H|].
  destruct (isDomainEvent e) eqn:Hdom.
  - unfold exec. rewrite dispatch_domain by exact Hdom. cbn [snd].
    rewrite withView_log. cbn. unfold logAfter. now rewrite Hsn.
  - unfold isDomainEvent in Hdom. unfold exec. cbn [dispatch].
    destruct s as [sn lg q i t d g]. cbn in Hsn, H. subst sn lg.
    destruct (lookupMethod (type e)) as [[]|] eqn:Hm; try reflexivity.
    + pose proof (dispatch_empty_type n e
                    (mkIdea None [] q i t d g) Hm) as H1.
      unfold bind. now rewrite H1.
    + destruct (data e) eqn:Hd; [discriminate|].
      unfold_methods; unfold_monad. now rewrite Hd.
    + destruct (data e) eqn:Hd; [discriminate|].
      unfold_methods; unfold_monad. now rewrite Hd.
    + destruct (data e) eqn:Hd; [discriminate|].
      unfold_methods; unfold_monad. now rewrite Hd.
Qed.

Lemma initializeState_logTracked : forall fuel l s,
  logTracked s -> logTracked (exec (initializeState fuel l false) s).
Proof.
  intros fuel l s. unfold initializeState.
  apply (reconcile_keeps (dispatch fuel) logTracked).
  - intros e s'. apply dispatch_logTracked.
  - intros e s' H. exact H.
  - intros s' H. unfold exec. rewrite checkAllCommitted_run.
    now apply checked_logTracked.
Qed.

Lemma initializeState_queueDomain : forall fuel l s,
  queueDomain s -> queueDomain (exec (initializeState fuel l false) s).
Proof.
  intros fuel l s. unfold initializeState.
  apply (reconcile_keeps (dispatch fuel) queueDomain); unfold queueDomain.
  - intros e s' H. now rewrite dispatch_uncommitted.
  - intros e s' H. cbn. now apply forallb_reject.
  - intros s' H. now rewrite checkAllCommitted_uncommitted.
Qed.

Lemma reachable_logTracked : forall s, reachable s -> logTracked s.
Proof.
  induction 1 as [i t d | s fuel v _ IH | s fuel v _ IH | s fuel l _ IH].
  - intros _. reflexivity.
  - unfold exec. destruct fuel as [|n].
    + rewrite changeTitle_out_of_fuel. intros H. discriminate H.
    + rewrite changeTitle_run. intros H. discriminate H.
  - unfold exec. destruct fuel as [|n].
    + rewrite addTag_out_of_fuel. intros H. discriminate H.
    + rewrite addTag_run. intros H. discriminate H.
  - now apply initializeState_logTracked.
Qed.

Lemma reachable_queueDomain : forall s, reachable s -> queueDomain s.
Proof.
  induction 1 as [i t d | s fuel v _ IH | s fuel v _ IH | s fuel l _ IH].
  - reflexivity.
  - unfold exec, queueDomain in *. destruct fuel as [|n].
    + rewrite changeTitle_out_of_fuel. exact IH.
    + rewrite changeTitle_run. cbn. rewrite forallb_app, IH. reflexivity.
  - unfold exec, queueDomain in *. destruct fuel as [|n].
    + rewrite addTag_out_of_fuel. exact IH.
    + rewrite addTag_run. cbn. rewrite forallb_app, IH. reflexivity.
  - now apply initializeState_queueDomain.
Qed.

(** X15: invariants of every state that [new Idea], [changeTitle],
    [addTag] and [initializeState] produce, whether the calls return
    or throw: without a snapshot the log is empty; the log holds only
    events that a domain handler accepted; and the queue holds only
    such events too. *)
Theorem reachable_invariants : forall s,
  reachable s ->
  (snapshot s = None -> eventsSinceSnapshot s = []) /\
  forallb isDomainEvent (eventsSinceSnapshot s) = true /\
  forallb isDomainEvent (uncommittedEvents s) = true.
Proof.
  intros s Hs. split; [|split].
  - now apply reachable_logTracked.
  - now apply reachable_logOk.
  - now apply reachable_queueDomain.
Qed.

Lemma reachable_invariants_witness :
  forallb isDomainEvent (uncommittedEvents pendingTitleAndTag) = true.
Proof.
  exact (proj2 (proj2
           (reachable_invariants pendingTitleAndTag
              (reach_addTag _ 1 (VNum 1)
                 (reach_changeTitle _ 1 (VStr "a")
                    (reach_new (VNum 123) (VStr "1st idea") VUndefined)))))).
Defined.

(** ** Handing the queue back *)

Lemma rejectAll_covered : forall l q,
  (forall ue, In ue q ->
     exists e, In e l /\ looseEq (correlationId ue) (correlationId e) = true) ->
  rejectAll l q = [].
Proof.
  induction l as [|e l IH]; intros q H.
  - destruct q as [|ue q]; [reflexivity|].
    destruct (H ue (or_introl eq_refl)) as [e [[] _]].
  - cbn. apply IH. intros ue Hue.
    apply filter_In in Hue as [Hin Hneq]. apply negb_true_iff in Hneq.
    destruct (H ue Hin) as [e' [[He'|He'] Hm]].
    + subst e'. congruence.
    + exists e'. split; assumption.
Qed.

(** X6: the queue handed back as a batch, as when the server echoes
    every pending event.  In a state produced by the public operations
    with a non-empty queue, [initializeState(idea.uncommittedEvents)]
    returns and leaves the queue empty, no snapshot and an empty log. *)
Theorem echoing_the_queue_confirms_everything : forall n s,
  reachable s ->
  uncommittedEvents s <> [] ->
  let s' := exec (initializeState (S n) (uncommittedEvents s) false) s in
  result (initializeState (S n) (uncommittedEvents s) false) s = Return tt /\
  uncommittedEvents s' = [] /\
  snapshot s' = None /\
  eventsSinceSnapshot s' = [].
Proof.
  intros n s Hs Hne.
  apply confirm_all_run; try assumption;
    [now apply reachable_queueDomain | now apply reachable_logTracked|].
  apply rejectAll_covered. intros ue Hue. exists ue. split; [exact Hue|].
  apply looseEq_refl.
Qed.

Lemma echoing_the_queue_confirms_everything_witness :
  uncommittedEvents
    (exec (initializeState 1 (uncommittedEvents pendingTitleAndTag) false)
          pendingTitleAndTag) = [].
Proof.
  assert (Hne : uncommittedEvents pendingTitleAndTag <> []) by discriminate.
  exact (proj1 (proj2
           (echoing_the_queue_confirms_everything 0 pendingTitleAndTag
              (reach_addTag _ 1 (VNum 1)
                 (reach_changeTitle _ 1 (VStr "a")
                    (reach_new (VNum 123) (VStr "1st idea") VUndefined)))
              Hne))).
Defined.

(** ** Correlation ids *)

(** X16: the ids of the two commands overlap.  [addTag("title" + t)]
    builds the id that [changeTitle(t)] builds, so one batch event
    bearing the id of the title change removes the pending tag
    addition from the queue as well. *)
Theorem command_ids_collide : forall n m fuel s t ty dat,
  let tag := VStr (String.append "title" t) in
  let cmds := addTag (S n) tag ;; changeTitle (S m) (VStr t) in
  let conf := mkEvent ty dat (Some (String.append "my-ref-title" t)) in
  correlationId (tagAddedEvent (ideaId s) tag)
  = correlationId (titleChangedEvent (ideaId s) (VStr t)) /\
  uncommittedEvents (exec cmds s)
  = uncommittedEvents s ++ [tagAddedEvent (ideaId s) tag;
                            titleChangedEvent (ideaId s) (VStr t)] /\
  uncommittedEvents (exec (initializeState fuel [conf] false) (exec cmds s))
  = rejectCorrelation conf (uncommittedEvents s).
Proof.
  intros n m fuel s t ty dat tag cmds conf.
  assert (Hq : uncommittedEvents (exec cmds s)
               = uncommittedEvents s ++ [tagAddedEvent (ideaId s) tag;
                                         titleChangedEvent (ideaId s) (VStr t)]).
  { subst cmds. unfold exec, bind. rewrite addTag_run, changeTitle_run. cbn.
    now rewrite <- app_assoc. }
  split; [reflexivity|]. split; [exact Hq|].
  rewrite reconcile_single_queue, Hq.
  apply rejectCorrelation_same; cbn; apply String.eqb_refl.
Qed.

(** X10: a rejection that carries no [correlationId].  While a snapshot
    exists, the queue is not empty and every queue entry has a string
    id, it removes nothing
    from the queue, but [undefined == undefined] makes it drop from
    the log every event without a [correlationId]; the fields end as
    the snapshot's with only the logged events that carry an id
    replayed. *)
Theorem rejection_without_id_drops_remote_events : forall n rej s sn,
  snapshot s = Some sn ->
  logOk s ->
  queueOk s ->
  uncommittedEvents s <> [] ->
  isRejection rej = true ->
  correlationId rej = None ->
  let withId :=
    filter (fun e => match correlationId e with Some _ => true | None => false end)
           (eventsSinceSnapshot s) in
  let s' := exec (initializeState (S (S n)) [rej] false) s in
  result (initializeState (S (S n)) [rej] false) s = Return tt /\
  uncommittedEvents s' = uncommittedEvents s /\
  eventsSinceSnapshot s' = withId ++ withId /\
  content (toString s') = content (replayView (snapshotView sn) withId).
Proof.
  intros n rej s sn Hsn Hlog Hq Hne Hrej Hnone withId s'. subst s'.
  assert (Hqueue : rejectCorrelation rej (uncommittedEvents s) = uncommittedEvents s)
    by (now apply rejectCorrelation_absent).
  assert (Hlog' : rejectCorrelation rej (eventsSinceSnapshot s) = withId).
  { unfold withId, rejectCorrelation. apply filter_ext. intros e.
    rewrite Hnone. now destruct (correlationId e). }
  unfold result, exec.
  rewrite (rejection_pending_run n rej s sn Hsn Hlog Hrej) by (now rewrite Hqueue).
  cbn [fst snd].
  rewrite withView_queue, withView_log, toString_withView.
  cbn [uncommittedEvents eventsSinceSnapshot set_eventsSinceSnapshot set_uncommittedEvents].
  rewrite Hqueue, Hlog'. repeat split.
  unfold snapshotView. apply content_replayView.
Qed.

Lemma rejection_without_id_drops_remote_events_witness :
  let s := exec (initializeState 1 [remoteTitle "b"] false) pendingTitleAndTag in
  let rej := mkEvent "FailedThatIdeaTitleWasChanged" None None in
  title (exec (initializeState 1 [remoteTitle "b"] false) pendingTitleAndTag) = VStr "b" /\
  content (toString (exec (initializeState 2 [rej] false) s)) = (VStr "a", VUndefined, [VNum 1]).
Proof.
  cbv zeta. split; [reflexivity|].
  assert (Hq : queueOk (exec (initializeState 1 [remoteTitle "b"] false) pendingTitleAndTag)).
  { repeat constructor; eexists; (split; [reflexivity|discriminate]). }
  assert (Hne : uncommittedEvents
                  (exec (initializeState 1 [remoteTitle "b"] false) pendingTitleAndTag) <> [])
    by discriminate.
  exact (proj2 (proj2 (proj2
           (rejection_without_id_drops_remote_events 0
              (mkEvent "FailedThatIdeaTitleWasChanged" None None)
              (exec (initializeState 1 [remoteTitle "b"] false) pendingTitleAndTag)
              snapshot123 eq_refl eq_refl Hq Hne eq_refl eq_refl)))).
Defined.

(** ** [createIdea] *)

(** X17: [createIdea] ignores its arguments.  Whatever title and
    description it is given, it returns the aggregate with identifier
    [123], title ["My new idea"], description ["Description of an
    Idea"], no tags, no snapshot, and a queue holding the creation
    event, which has no [correlationId]: reconciling any one batch
    event without a [correlationId] empties that queue. *)
Theorem createIdea_ignores_arguments : forall n t d fuel ty dat,
  let created :=
    mkIdea None [] [ideaWasCreatedEvent] (VNum 123) (VStr "My new idea")
           (VStr "Description of an Idea") [] in
  createIdea (S n) t d = (Return tt, created) /\
  uncommittedEvents (exec (initializeState fuel [mkEvent ty dat None] false) created) = [].
Proof.
  intros n t d fuel ty dat created. split; [reflexivity|].
  now rewrite reconcile_single_queue.
Qed.

(** ** The repository *)

(** X18: [find] returns the first idea, in array order, whose identifier
    loosely equals the key, and [undefined] exactly when no idea of
    the repository has such an identifier. *)
Theorem find_first_match : forall stringEqualsNumber l i,
  match find stringEqualsNumber (createInMemoryRepository l) i with
  | Some x =>
      exists l1 l2,
        l = l1 ++ x :: l2 /\
        looseEqValue stringEqualsNumber (ideaId x) i = true /\
        Forall (fun y => looseEqValue stringEqualsNumber (ideaId y) i = false) l1
  | None =>
      Forall (fun y => looseEqValue stringEqualsNumber (ideaId y) i = false) l
  end.
Proof.
  intros sen l i. unfold find, createInMemoryRepository. cbn [ideas].
  induction l as [|y l IH]; cbn [List.find].
  - constructor.
  - destruct (looseEqValue sen (ideaId y) i) eqn:Hy.
    + exists [], l. repeat split; [exact Hy|constructor].
    + destruct (List.find (fun idea => looseEqValue sen (ideaId idea) i) l) as [x|].
      * destruct IH as [l1 [l2 [Hl [Hx Hall]]]].
        exists (y :: l1), l2. rewrite Hl. repeat split; [exact Hx|].
        constructor; assumption.
      * constructor; assumption.
Qed.

(** X19: looking up a number among ideas whose identifiers are numbers.
    If some idea of the repository has the number as identifier,
    [find] returns an idea with exactly that identifier. *)
Theorem find_number : forall stringEqualsNumber l k,
  Forall (fun y => exists z, ideaId y = VNum z) l ->
  (exists y, In y l /\ ideaId y = VNum k) ->
  exists x, find stringEqualsNumber (createInMemoryRepository l) (VNum k) = Some x /\
            In x l /\ ideaId x = VNum k.
Proof.
  intros sen l k Hnum [y [Hy Hk]]. unfold find, createInMemoryRepository. cbn [ideas].
  induction l as [|a l IH]; [destruct Hy|].
  inversion Hnum as [|a' l' [z Hz] Hrest]; subst. cbn [List.find].
  rewrite Hz. cbn [looseEqValue]. destruct (Z.eqb z k) eqn:Hzk.
  - apply Z.eqb_eq in Hzk. subst z. exists a. repeat split; [now left|exact Hz].
  - destruct Hy as [Hy|Hy].
    + subst a. rewrite Hk in Hz. inversion Hz; subst. rewrite Z.eqb_refl in Hzk. discriminate.
    + destruct (IH Hrest Hy) as [x [Hf [Hin Hx]]].
      exists x. repeat split; [exact Hf|now right|exact Hx].
Qed.

Lemma find_number_witness :
  exists x, find (fun _ _ => false) (createInMemoryRepository [idea123]) (VNum 123) = Some x /\
            In x [idea123] /\ ideaId x = VNum 123.
Proof.
  apply (find_number (fun _ _ => false) [idea123] 123).
  - repeat constructor. now exists 123%Z.
  - exists idea123. split; [now left|reflexivity].
Defined.

(** ** Reconciliation in a reachable state *)

(** X14: in a state produced by the public operations, reconciling a
    batch none of whose events has the empty [type] returns or throws
    a [TypeError] with a dispatch depth of two: a rejection replays
    domain events only, so the handlers never nest deeper. *)
Theorem reconciliation_returns_or_throws : forall n stream s,
  reachable s ->
  Forall (fun e => type e <> "") stream ->
  result (initializeState (S (S n)) stream false) s = Return tt \/
  result (initializeState (S (S n)) stream false) s = Throw TypeError.
Proof.
  intros n stream s Hs Hty.
  assert (Hne : result (initializeState (S (S n)) stream false) s <> OutOfFuel).
  { apply initializeState_total; [now apply reachable_logOk|].
    apply Forall_forall. intros e He Hm.
    rewrite Forall_forall in Hty. apply (Hty e He).
    unfold lookupMethod in Hm.
    destruct (String.eqb_spec (type e) ""); [assumption|].
    repeat match type of Hm with
           | (if ?b then _ else _) = _ => destruct b; try discriminate
           end. }
  destruct (result (initializeState (S (S n)) stream false) s) as [[]|[]|];
    [now left|now right|congruence].
Qed.

Lemma reconciliation_returns_or_throws_witness :
  result (initializeState 2 [rejectTag1; confirmTitleA] false) pendingTitleAndTag = Return tt \/
  result (initializeState 2 [rejectTag1; confirmTitleA] false) pendingTitleAndTag
  = Throw TypeError.
Proof.
  apply (reconciliation_returns_or_throws 0 [rejectTag1; confirmTitleA] pendingTitleAndTag).
  - exact (reach_addTag _ 1 (VNum 1)
             (reach_changeTitle _ 1 (VStr "a")
                (reach_new (VNum 123) (VStr "1st idea") VUndefined))).
  - repeat constructor; discriminate.
Defined.
